(** * Task-management backend: routes over the document store

    A shallow embedding of the route handlers for tasks
    ([server/routes/tasks.js]), notifications (with the schema of
    [models/Notification.js]) and user search ([server/routes/users.js]),
    followed by the properties of the specification stated over it.

    Collections are lists of documents in insertion order.  An ObjectId is
    modelled by its numeric value; its [toString()] rendering is injective
    and is the form in which requests carry ids, so the handlers' comparisons
    of renderings are comparisons of values.  The [:id] of a route is such a
    rendering: for text that is no ObjectId [findById] throws a CastError
    before anything is read or written, and that path is left out.  Text is 8-bit characters with
    ASCII case folding.  Every handler is an [async] function whose body sits
    in [try { ... } catch { 500 }]: it is embedded in a state-and-exception
    monad over the store, where writes done before a throw stay done. *)

From Stdlib Require Import ZArith NArith Ascii String.
From stdpp Require Import base option list gmap strings.

Local Open Scope N_scope.

(** ** Values *)

Definition oid := N.

(** A body field after destructuring [req.body], or a stored task field:
    [None] is JavaScript's [undefined] (key absent). *)
Inductive jsval :=
| JNull
| JStr (s : string).

(** [`${v}`] inside a template literal. *)
Definition template (v : option jsval) : string :=
  match v with
  | None => "undefined"
  | Some JNull => "null"
  | Some (JStr s) => s
  end.

(** [.sort({ createdAt: -1 })]: newest first. *)
Fixpoint insert_desc {A} (key : A → Z) (x : A) (l : list A) : list A :=
  match l with
  | [] => [x]
  | y :: l' =>
      if (key y <=? key x)%Z then x :: y :: l' else y :: insert_desc key x l'
  end.

Definition sort_desc {A} (key : A → Z) (l : list A) : list A :=
  foldr (insert_desc key) [] l.

(** ** Regular expressions, as [$regex] with [$options: 'i'] reads them

    The fragment modelled: ordinary characters, [.], and a backslash before a
    character that is not a letter or a digit.  A pattern that ends in a lone
    backslash does not compile.  What the engine does with a pattern that
    uses any other metacharacter is a parameter of the development. *)
Module Regex.

Inductive atom :=
| Lit (c : ascii)
| AnyChar.

Inductive compiled :=
| Compiled (p : list atom)
| Invalid
| Unmodelled.

Definition between (lo hi : N) (c : ascii) : bool :=
  (lo <=? N_of_ascii c) && (N_of_ascii c <=? hi).

Definition is_upper : ascii → bool := between 65 90.
Definition is_alnum (c : ascii) : bool :=
  between 48 57 c || between 65 90 c || between 97 122 c.

(** [. ^ $ * + ? ( ) [ ] { } |] and the backslash. *)
Definition is_meta (c : ascii) : bool :=
  bool_decide (N_of_ascii c ∈ [46; 94; 36; 42; 43; 63; 40; 41; 91; 93; 123; 125; 124; 92]).

Definition lower (c : ascii) : ascii :=
  if is_upper c then ascii_of_N (N_of_ascii c + 32) else c.

Definition cons_atom (a : atom) (r : compiled) : compiled :=
  match r with
  | Compiled p => Compiled (a :: p)
  | other => other
  end.

Fixpoint compile (pattern : string) : compiled :=
  match pattern with
  | EmptyString => Compiled []
  | String c rest =>
      if Ascii.eqb c "\" then
        match rest with
        | EmptyString => Invalid
        | String e rest' =>
            if is_alnum e then Unmodelled else cons_atom (Lit e) (compile rest')
        end
      else if Ascii.eqb c "." then cons_atom AnyChar (compile rest)
      else if is_meta c then Unmodelled
      else cons_atom (Lit c) (compile rest)
  end.

Definition atom_matches (a : atom) (c : ascii) : bool :=
  match a with
  | Lit x => Ascii.eqb (lower x) (lower c)
  | AnyChar => negb (Ascii.eqb c "010")
  end.

Fixpoint matches_here (p : list atom) (s : string) : bool :=
  match p, s with
  | [], _ => true
  | _ :: _, EmptyString => false
  | a :: p', String c s' => atom_matches a c && matches_here p' s'
  end.

(** An unanchored pattern matches when it matches at some position. *)
Fixpoint matches_anywhere (p : list atom) (s : string) : bool :=
  matches_here p s ||
  match s with
  | EmptyString => false
  | String _ s' => matches_anywhere p s'
  end.

(** What an engine makes of a pattern under [$options: 'i']: [None] when the
    pattern does not compile, else the test that a string undergoes. *)
Definition engine : Type := string → option (string → bool).

(** The engine of the database: as defined above on the fragment, and
    [beyond] on the rest of the syntax, which is left open. *)
Definition test_i (beyond : engine) : engine := λ pattern,
  match compile pattern with
  | Compiled p => Some (matches_anywhere p)
  | Invalid => None
  | Unmodelled => beyond pattern
  end.

End Regex.

(** ** Models *)

Module User.

(** [models/User.js] is not among the sources: a user is its [_id] and its
    string-valued fields by name ([fullName], [username], [email],
    [password], [role]). *)
Record doc := { _id : oid; fields : gmap string string }.

Definition findById (id : oid) (coll : list doc) : option doc :=
  List.find (λ u, _id u =? id) coll.

(** [.select('-password')] and the like. *)
Definition select_without (key : string) (u : doc) : doc :=
  {| _id := _id u; fields := delete key (fields u) |}.

(** The field list of [populate(path, 'fullName username email')]. *)
Definition select_only (keys : list string) (u : doc) : doc :=
  {| _id := _id u; fields := filter (λ kv, kv.1 ∈ keys) (fields u) |}.

(** [{ field: { $regex: pattern, $options: 'i' } }]: a field that is
    missing does not match. *)
Definition regex_i (test : string → bool) (field : string) (u : doc) : bool :=
  match fields u !! field with
  | Some s => test s
  | None => false
  end.

(** [{ $or: [ {f1: {$regex..}}, {f2: ..}, .. ] }] *)
Definition or_regex_i (test : string → bool) (fs : list string) (u : doc) : bool :=
  existsb (λ f, regex_i test f u) fs.

End User.

Module Notification.

Inductive kind := task_assigned | task_updated.

Record doc := {
  _id : oid;
  type : kind;
  taskId : oid;
  message : string;
  userId : oid;
  read : bool;
  createdAt : Z
}.

(** The object literal handed to [insertMany]. *)
Record draft := {
  d_type : kind;
  d_taskId : oid;
  d_message : string;
  d_userId : oid
}.

(** Schema defaults: [read: false], [createdAt: Date.now]. *)
Definition build (now : Z) (id : oid) (d : draft) : doc :=
  {| _id := id; type := d_type d; taskId := d_taskId d;
     message := d_message d; userId := d_userId d;
     read := false; createdAt := now |}.

(** [required: true] on a String path rejects the empty string; the other
    required paths are present by typing. *)
Definition valid (d : draft) : bool := negb (String.eqb (d_message d) "").

Fixpoint build_all (now : Z) (next : oid) (ds : list draft) : list doc :=
  match ds with
  | [] => []
  | d :: ds' => build now next d :: build_all now (N.succ next) ds'
  end.

(** [Notification.findById(id)], once [id] has been cast to an ObjectId. *)
Definition findById (id : oid) (coll : list doc) : option doc :=
  List.find (λ n, _id n =? id) coll.

(** [doc.save()] on a loaded document: writes it back under its [_id]. *)
Fixpoint save (n : doc) (coll : list doc) : list doc :=
  match coll with
  | [] => []
  | d :: coll' => if _id d =? _id n then n :: coll' else d :: save n coll'
  end.

Definition set_read (n : doc) : doc :=
  {| _id := _id n; type := type n; taskId := taskId n;
     message := message n; userId := userId n;
     read := true; createdAt := createdAt n |}.

Definition updateMany (sel : doc → bool) (upd : doc → doc) (coll : list doc)
  : list doc :=
  map (λ n, if sel n then upd n else n) coll.

Definition deleteMany (sel : doc → bool) (coll : list doc) : list doc :=
  filter (λ n, ¬ sel n) coll.

End Notification.

Module Task.

Record fields := {
  title : option jsval;
  description : option jsval;
  status : option jsval;
  priority : option jsval;
  dueDate : option jsval
}.

Record doc := {
  _id : oid;
  content : fields;
  createdBy : oid;
  assignedTo : list oid;
  createdAt : Z
}.

(** [models/Task.js] is not among the sources.  Casting, defaults and
    validation of the five content fields on [save()] are a parameter:
    [None] is a validation error. *)
Record schema := { cast : fields → option fields }.

(** [Task.findById(id)], once [id] has been cast to an ObjectId. *)
Definition findById (id : oid) (coll : list doc) : option doc :=
  List.find (λ t, _id t =? id) coll.

(** One path of a [$set]: Mongoose drops a key whose value is [undefined]
    from the update before it is sent, so the stored value stays. *)
Definition set_path {A} (new : option A) (old : option A) : option A :=
  match new with
  | Some v => Some v
  | None => old
  end.

(** The [updates] object of the PUT handler. *)
Record updates := {
  u_content : fields;
  u_assignedTo : option (list oid)
}.

Definition apply_set (u : updates) (t : doc) : doc :=
  {| _id := _id t;
     content :=
       {| title := set_path (title (u_content u)) (title (content t));
          description := set_path (description (u_content u)) (description (content t));
          status := set_path (status (u_content u)) (status (content t));
          priority := set_path (priority (u_content u)) (priority (content t));
          dueDate := set_path (dueDate (u_content u)) (dueDate (content t)) |};
     createdBy := createdBy t;
     assignedTo := default (assignedTo t) (u_assignedTo u);
     createdAt := createdAt t |}.

(** [findByIdAndUpdate(id, { $set: u }, { new: true })]: the updated
    document ([null] when there is none) and the collection. *)
Fixpoint findByIdAndUpdate (id : oid) (u : updates) (coll : list doc)
  : option doc * list doc :=
  match coll with
  | [] => (None, [])
  | t :: coll' =>
      if _id t =? id then (Some (apply_set u t), apply_set u t :: coll')
      else let '(r, coll'') := findByIdAndUpdate id u coll' in (r, t :: coll'')
  end.

(** [doc.deleteOne()] *)
Fixpoint deleteOne (id : oid) (coll : list doc) : list doc :=
  match coll with
  | [] => []
  | t :: coll' => if _id t =? id then coll' else t :: deleteOne id coll'
  end.

End Task.

(** ** The store and the handler monad *)

Record store := {
  users : list User.doc;
  tasks : list Task.doc;
  notifications : list Notification.doc;
  next_oid : oid
}.

Definition with_tasks (ts : list Task.doc) (s : store) : store :=
  {| users := users s; tasks := ts;
     notifications := notifications s; next_oid := next_oid s |}.

Definition with_notifications (ns : list Notification.doc) (s : store) : store :=
  {| users := users s; tasks := tasks s;
     notifications := ns; next_oid := next_oid s |}.

Definition with_next_oid (n : oid) (s : store) : store :=
  {| users := users s; tasks := tasks s;
     notifications := notifications s; next_oid := n |}.

(** A computation over the store that returns a value or throws ([None]);
    the store it leaves behind is kept in both cases. *)
Definition M (A : Type) : Type := store → option A * store.

#[global] Instance M_ret : MRet M := λ A a s, (Some a, s).

#[global] Instance M_bind : MBind M := λ A B k m s,
  match m s with
  | (Some a, s') => k a s'
  | (None, s') => (None, s')
  end.

Definition throw {A} : M A := λ s, (None, s).
Definition reading {A} (f : store → A) : M A := λ s, (Some (f s), s).
Definition writing (f : store → store) : M () := λ s, (Some (), f s).

(** ** Responses *)

Record populated_task := {
  pt_doc : Task.doc;
  pt_createdBy : option User.doc;
  pt_assignedTo : list User.doc
}.

Record populated_notification := {
  pn_doc : Notification.doc;
  pn_taskId : option (oid * option jsval)
}.

Inductive json :=
| JMessage (message : string)
| JTask (t : option populated_task)
| JTasks (ts : list populated_task)
| JNotification (n : Notification.doc)
| JNotifications (ns : list populated_notification)
| JUsers (us : list User.doc).

Record response := { status : nat; body : json }.

Definition respond (code : nat) (b : json) : M response :=
  mret {| status := code; body := b |}.

(** The [catch] of every handler. *)
Definition try_catch (handler : M response) : store → response * store :=
  λ s, match handler s with
       | (Some r, s') => (r, s')
       | (None, s') => ({| status := 500; body := JMessage "Server error" |}, s')
       end.

(** ** Store access *)

Definition display : list string := ["fullName"; "username"; "email"].

(** [.populate('createdBy', 'fullName username email')
     .populate('assignedTo', 'fullName username email')]: a reference to a
    user that does not exist becomes [null], and is left out of an array. *)
Definition populate_task (us : list User.doc) (t : Task.doc) : populated_task :=
  {| pt_doc := t;
     pt_createdBy := User.select_only display <$> User.findById (Task.createdBy t) us;
     pt_assignedTo :=
       omap (λ id, User.select_only display <$> User.findById id us)
            (Task.assignedTo t) |}.

(** [.populate('taskId', 'title')] *)
Definition populate_notification (ts : list Task.doc) (n : Notification.doc)
  : populated_notification :=
  {| pn_doc := n;
     pn_taskId :=
       (λ t, (Task._id t, Task.title (Task.content t)))
         <$> Task.findById (Notification.taskId n) ts |}.

(** [new Task({...})] followed by [task.save()]. *)
Definition Task_create (sch : Task.schema) (now : Z) (content : Task.fields)
    (createdBy : oid) (assignedTo : option (list oid)) : M Task.doc :=
  λ s, match Task.cast sch content with
       | None => (None, s)
       | Some content' =>
           let task :=
             {| Task._id := next_oid s; Task.content := content';
                Task.createdBy := createdBy;
                Task.assignedTo := default [] assignedTo;
                Task.createdAt := now |} in
           (Some task,
            with_next_oid (N.succ (next_oid s)) (with_tasks (tasks s ++ [task]) s))
       end.

Definition Notification_insertMany (now : Z) (ds : list Notification.draft) : M () :=
  λ s, if forallb Notification.valid ds then
         (Some (),
          with_next_oid (next_oid s + N.of_nat (length ds))
            (with_notifications
               (notifications s ++ Notification.build_all now (next_oid s) ds) s))
       else (None, s).

Definition Task_findByIdAndUpdate (id : oid) (u : Task.updates) : M (option Task.doc) :=
  λ s, let '(r, ts) := Task.findByIdAndUpdate id u (tasks s) in
       (Some r, with_tasks ts s).

(** ** Routes: [server/routes/tasks.js] *)

Record task_body := {
  body_content : Task.fields;
  body_assignedTo : option (list oid)
}.

(** The notification literals of the two handlers that assign users. *)
Definition task_assigned_to_new (taskId : oid) (title : option jsval)
    (userId : oid) : Notification.draft :=
  {| Notification.d_type := Notification.task_assigned;
     Notification.d_taskId := taskId;
     Notification.d_message :=
       "You have been assigned a new task: " +:+ template title;
     Notification.d_userId := userId |}.

Definition task_assigned_to_existing (taskId : oid) (title : option jsval)
    (userId : oid) : Notification.draft :=
  {| Notification.d_type := Notification.task_assigned;
     Notification.d_taskId := taskId;
     Notification.d_message :=
       "You have been assigned to the task: " +:+ template title;
     Notification.d_userId := userId |}.

(** [GET /tasks] *)
Definition get_tasks (caller : oid) : M response :=
  user ← reading (λ s, User.findById caller (users s));
  match user with
  | None => throw (* [user.role] on [null] *)
  | Some user =>
      if bool_decide (User.fields user !! "role" ≠ Some "admin") then
        respond 403 (JMessage "Access denied")
      else
        tasks ← reading (λ s, sort_desc (Task.createdAt ∘ pt_doc)
                            (populate_task (users s) <$> tasks s));
        respond 200 (JTasks tasks)
  end.

(** [GET /tasks/created] *)
Definition get_tasks_created (caller : oid) : M response :=
  tasks ← reading (λ s, sort_desc (Task.createdAt ∘ pt_doc)
                      (populate_task (users s) <$>
                         filter (λ t, Task.createdBy t = caller) (tasks s)));
  respond 200 (JTasks tasks).

(** [GET /tasks/assigned] *)
Definition get_tasks_assigned (caller : oid) : M response :=
  tasks ← reading (λ s, sort_desc (Task.createdAt ∘ pt_doc)
                      (populate_task (users s) <$>
                         filter (λ t, caller ∈ Task.assignedTo t) (tasks s)));
  respond 200 (JTasks tasks).

(** [POST /tasks] *)
Definition post_task (sch : Task.schema) (now : Z) (caller : oid) (b : task_body)
  : M response :=
  let title := Task.title (body_content b) in
  task ← Task_create sch now (body_content b) caller (body_assignedTo b);
  (* [assignedTo.map(...)]: a TypeError when [assignedTo] is undefined *)
  assignedTo ← match body_assignedTo b with
               | Some l => mret l
               | None => throw
               end;
  let notifications :=
    task_assigned_to_new (Task._id task) title <$> assignedTo in
  Notification_insertMany now notifications;;
  populatedTask ← reading (λ s, populate_task (users s)
                              <$> Task.findById (Task._id task) (tasks s));
  respond 201 (JTask populatedTask).

(** [PUT /tasks/:id] *)
Definition put_task (now : Z) (caller : oid) (id : oid) (b : task_body)
  : M response :=
  task ← reading (λ s, Task.findById id (tasks s));
  match task with
  | None => respond 404 (JMessage "Task not found")
  | Some task =>
      if bool_decide (Task.createdBy task ≠ caller) then
        respond 403 (JMessage "Not authorized to update this task")
      else
        let title := Task.title (body_content b) in
        updates ←
          (* [if (assignedTo)]: an array is truthy, also when empty *)
          match body_assignedTo b with
          | Some assignedTo =>
              let newAssignees :=
                filter (λ userId, userId ∉ Task.assignedTo task) assignedTo in
              (if bool_decide (0 < length newAssignees)%nat then
                 let notifications :=
                   task_assigned_to_existing (Task._id task) title
                     <$> newAssignees in
                 Notification_insertMany now notifications
               else mret ());;
              mret {| Task.u_content := body_content b;
                      Task.u_assignedTo := Some assignedTo |}
          | None =>
              mret {| Task.u_content := body_content b;
                      Task.u_assignedTo := None |}
          end;
        updatedTask ← Task_findByIdAndUpdate id updates;
        populated ← reading (λ s, populate_task (users s) <$> updatedTask);
        respond 200 (JTask populated)
  end.

(** [PATCH /tasks/:id/status] *)
Definition patch_task_status (caller : oid) (id : oid) (status : option jsval)
  : M response :=
  task ← reading (λ s, Task.findById id (tasks s));
  match task with
  | None => respond 404 (JMessage "Task not found")
  | Some task =>
      if bool_decide (caller ∉ Task.assignedTo task) then
        respond 403 (JMessage "Not authorized to update this task")
      else
        updatedTask ←
          Task_findByIdAndUpdate id
            {| Task.u_content :=
                 {| Task.title := None; Task.description := None;
                    Task.status := status; Task.priority := None;
                    Task.dueDate := None |};
               Task.u_assignedTo := None |};
        populated ← reading (λ s, populate_task (users s) <$> updatedTask);
        respond 200 (JTask populated)
  end.

(** [DELETE /tasks/:id] *)
Definition delete_task (caller : oid) (id : oid) : M response :=
  task ← reading (λ s, Task.findById id (tasks s));
  match task with
  | None => respond 404 (JMessage "Task not found")
  | Some task =>
      if bool_decide (Task.createdBy task ≠ caller) then
        respond 403 (JMessage "Not authorized to delete this task")
      else
        writing (λ s, with_tasks (Task.deleteOne (Task._id task) (tasks s)) s);;
        writing (λ s, with_notifications
                    (Notification.deleteMany
                       (λ n, Notification.taskId n =? Task._id task)
                       (notifications s)) s);;
        respond 200 (JMessage "Task deleted")
  end.

(** ** Routes: notifications *)

(** [GET /notifications] *)
Definition get_notifications (caller : oid) : M response :=
  notifications ←
    reading (λ s, sort_desc (Notification.createdAt ∘ pn_doc)
                (populate_notification (tasks s) <$>
                   filter (λ n, Notification.userId n = caller) (notifications s)));
  respond 200 (JNotifications notifications).

(** [PATCH /notifications/:id/read] *)
Definition patch_notification_read (caller : oid) (id : oid) : M response :=
  notification ← reading (λ s, Notification.findById id (notifications s));
  match notification with
  | None => respond 404 (JMessage "Notification not found")
  | Some notification =>
      if bool_decide (Notification.userId notification ≠ caller) then
        respond 403 (JMessage "Not authorized")
      else
        let notification := Notification.set_read notification in
        writing (λ s, with_notifications
                    (Notification.save notification (notifications s)) s);;
        respond 200 (JNotification notification)
  end.

(** [POST /notifications/mark-all-read] *)
Definition post_mark_all_read (caller : oid) : M response :=
  writing (λ s, with_notifications
              (Notification.updateMany
                 (λ n, (Notification.userId n =? caller)
                       && negb (Notification.read n))
                 Notification.set_read
                 (notifications s)) s);;
  respond 200 (JMessage "All notifications marked as read").

(** ** Routes: [server/routes/users.js] *)

(** [GET /users/search?query=]: a pattern that does not compile makes
    [User.find] throw. *)
Definition get_users_search (beyond : Regex.engine) (query : option string)
  : M response :=
  match query with
  | None | Some EmptyString => respond 200 (JUsers [])
  | Some query =>
      match Regex.test_i beyond query with
      | None => throw
      | Some test =>
          users ←
            reading (λ s, User.select_without "password" <$>
                            List.filter
                              (User.or_regex_i test ["fullName"; "username"; "email"])
                              (users s));
          respond 200 (JUsers users)
      end
  end.

(** ** The service as a transition system *)

Inductive request :=
| GetNotifications (caller : oid)
| PatchNotificationRead (caller id : oid)
| PostMarkAllRead (caller : oid)
| GetTasks (caller : oid)
| GetTasksCreated (caller : oid)
| GetTasksAssigned (caller : oid)
| PostTask (now : Z) (caller : oid) (b : task_body)
| PutTask (now : Z) (caller id : oid) (b : task_body)
| PatchTaskStatus (caller id : oid) (status : option jsval)
| DeleteTask (caller id : oid)
| GetUsersSearch (query : option string).

(** What the sources leave open: the task schema and the engine's reading
    of patterns beyond the fragment. *)
Record config := {
  task_schema : Task.schema;
  regex_beyond : Regex.engine
}.

Definition route (cfg : config) (req : request) : M response :=
  match req with
  | GetNotifications caller => get_notifications caller
  | PatchNotificationRead caller id => patch_notification_read caller id
  | PostMarkAllRead caller => post_mark_all_read caller
  | GetTasks caller => get_tasks caller
  | GetTasksCreated caller => get_tasks_created caller
  | GetTasksAssigned caller => get_tasks_assigned caller
  | PostTask now caller b => post_task (task_schema cfg) now caller b
  | PutTask now caller id b => put_task now caller id b
  | PatchTaskStatus caller id status => patch_task_status caller id status
  | DeleteTask caller id => delete_task caller id
  | GetUsersSearch query => get_users_search (regex_beyond cfg) query
  end.

Definition handle (cfg : config) (req : request) (s : store) : response * store :=
  try_catch (route cfg req) s.

Definition initial (us : list User.doc) : store :=
  {| users := us; tasks := []; notifications := []; next_oid := 0 |}.

Inductive reachable (cfg : config) : store → Prop :=
| reachable_initial us : reachable cfg (initial us)
| reachable_step s req :
    reachable cfg s → reachable cfg (handle cfg req s).2.

Inductive steps (cfg : config) : store → store → Prop :=
| steps_refl s : steps cfg s s
| steps_next s req s' :
    steps cfg (handle cfg req s).2 s' → steps cfg s s'.

(** ** Specification-side vocabulary *)

Fixpoint lower_string (s : string) : string :=
  match s with
  | EmptyString => EmptyString
  | String c s' => String (Regex.lower c) (lower_string s')
  end.

(** [s] contains [q] as a case-insensitive substring. *)
Definition contains_ci (q s : string) : Prop :=
  ∃ pre post, lower_string s = pre +:+ lower_string q +:+ post.

(** The search condition in the specification's words: one of [fullName],
    [username], [email] contains the query, case-insensitively. *)
Definition spec_matches (q : string) (u : User.doc) : Prop :=
  ∃ v, (User.fields u !! "fullName" = Some v
        ∨ User.fields u !! "username" = Some v
        ∨ User.fields u !! "email" = Some v)
       ∧ contains_ci q v.

(** A query made of ordinary characters only. *)
Definition literal (q : string) : Prop :=
  ∀ c, c ∈ list_ascii_of_string q → Regex.is_meta c = false.

(** Modelled from the spec: the schema of [models/Task.js], which is not
    among the sources.  Following the data model, [title] is a required
    string; the other fields are kept as sent. *)
Definition title_required : Task.schema :=
  {| Task.cast f :=
       match Task.title f with
       | Some (JStr (String _ _)) => Some f
       | _ => None
       end |}.

(** Identifiers come from one increasing counter: those in use lie below it
    and are pairwise distinct within a collection. *)
Record wf (s : store) : Prop := {
  wf_task_ids : Forall (λ t, Task._id t < next_oid s) (tasks s);
  wf_notification_ids :
    Forall (λ n, Notification._id n < next_oid s) (notifications s);
  wf_task_nodup : NoDup (Task._id <$> tasks s);
  wf_notification_nodup : NoDup (Notification._id <$> notifications s)
}.

(** What one request can do to each collection, given the counter before
    ([k]) and after ([k']) it. *)
Inductive notifications_move (k k' : oid) (ns : list Notification.doc)
  : list Notification.doc → Prop :=
| notifications_kept : notifications_move k k' ns ns
| notifications_saved n :
    n ∈ ns →
    notifications_move k k' ns (Notification.save (Notification.set_read n) ns)
| notifications_updated sel :
    notifications_move k k' ns
      (Notification.updateMany sel Notification.set_read ns)
| notifications_inserted now j ds :
    k ≤ j → j + N.of_nat (length ds) ≤ k' →
    notifications_move k k' ns (ns ++ Notification.build_all now j ds)
| notifications_deleted sel :
    notifications_move k k' ns (Notification.deleteMany sel ns).

Inductive tasks_move (k k' : oid) (ts : list Task.doc) : list Task.doc → Prop :=
| tasks_kept : tasks_move k k' ts ts
| tasks_created t :
    k ≤ Task._id t < k' → tasks_move k k' ts (ts ++ [t])
| tasks_updated id u :
    tasks_move k k' ts (Task.findByIdAndUpdate id u ts).2
| tasks_deleted id :
    tasks_move k k' ts (Task.deleteOne id ts).

(** The [newAssignees] of the PUT handler ([[]] when the body has no
    [assignedTo]). *)
Definition newAssignees (t : Task.doc) (assignedTo : option (list oid)) : list oid :=
  match assignedTo with
  | Some us => filter (λ userId, userId ∉ Task.assignedTo t) us
  | None => []
  end.

(** How many entries of a list are a given id. *)
Definition occurrences (u : oid) (l : list oid) : nat :=
  length (filter (λ x, x = u) l).

(** A stored field after a partial update: kept when nothing was supplied,
    the supplied value otherwise. *)
Definition kept_or_replaced {A} (supplied before after : option A) : Prop :=
  (supplied = None → after = before) ∧ (∀ v, supplied = Some v → after = Some v).

(** The reply [res.json({ users })]. *)
Definition ok_users (us : list User.doc) : response :=
  {| status := 200; body := JUsers us |}.

(** ** Sample data *)

Definition alice : oid := 1.
Definition bob : oid := 2.
Definition carol : oid := 3.

Definition account (id : oid) (fullName username email password role : string)
  : User.doc :=
  {| User._id := id;
     User.fields :=
       list_to_map [("fullName", fullName); ("username", username);
                    ("email", email); ("password", password); ("role", role)] |}.

Definition alice_doc : User.doc :=
  account alice "Alice Smith" "alice" "alice@example.org" "wonderland" "admin".
Definition bob_doc : User.doc :=
  account bob "Bob Stone" "bob" "bob@localhost" "builder" "member".

Definition directory : list User.doc := [alice_doc; bob_doc].

Definition titled (t : string) : Task.fields :=
  {| Task.title := Some (JStr t); Task.description := None;
     Task.status := None; Task.priority := None; Task.dueDate := None |}.

Definition quarterly : Task.fields :=
  {| Task.title := Some (JStr "Plan");
     Task.description := Some (JStr "Quarterly plan");
     Task.status := Some (JStr "pending");
     Task.priority := Some (JStr "high");
     Task.dueDate := Some (JStr "2025-01-31") |}.

(** A deployment with the schema above and an engine that compiles nothing
    beyond the fragment. *)
Definition demo : config :=
  {| task_schema := title_required; regex_beyond := λ _, None |}.

(** Alice has created task [plan] for Bob, who has been notified. *)
Definition plan : Task.doc :=
  {| Task._id := 0; Task.content := titled "Plan";
     Task.createdBy := alice; Task.assignedTo := [bob];
     Task.createdAt := 5 |}.

Definition plan_notice : Notification.doc :=
  {| Notification._id := 1; Notification.type := Notification.task_assigned;
     Notification.taskId := 0;
     Notification.message := "You have been assigned a new task: Plan";
     Notification.userId := bob; Notification.read := false;
     Notification.createdAt := 5 |}.

Definition planned : store :=
  {| users := directory; tasks := [plan];
     notifications := [plan_notice]; next_oid := 2 |}.

(** Alice has created task [shared_plan] for herself and Bob. *)
Definition shared_plan : Task.doc :=
  {| Task._id := 0; Task.content := titled "Plan";
     Task.createdBy := alice; Task.assignedTo := [alice; bob];
     Task.createdAt := 5 |}.

Definition shared : store :=
  {| users := directory; tasks := [shared_plan];
     notifications :=
       Notification.build_all 5 1
         (task_assigned_to_new 0 (Some (JStr "Plan")) <$> [alice; bob]);
     next_oid := 3 |}.

(** The same directory after both users changed their passwords. *)
Definition directory' : list User.doc :=
  [ account alice "Alice Smith" "alice" "alice@example.org" "looking-glass" "admin";
    account bob "Bob Stone" "bob" "bob@localhost" "fixer" "member" ].

(** ** Vocabulary for further properties *)

(** Newest first: [key] never increases along the list. *)
Fixpoint newest_first {A} (key : A → Z) (l : list A) : Prop :=
  match l with
  | [] => True
  | x :: l' => Forall (λ y, (key y ≤ key x)%Z) l' ∧ newest_first key l'
  end.

(** The user records that a reply carries. *)
Definition users_shown (b : json) : list User.doc :=
  match b with
  | JTask (Some t) => option_list (pt_createdBy t) ++ pt_assignedTo t
  | JTasks ts => ts ≫= (λ t, option_list (pt_createdBy t) ++ pt_assignedTo t)
  | JUsers us => us
  | _ => []
  end.

(** Every notification refers to a stored task. *)
Definition refers_to_tasks (s : store) : Prop :=
  ∀ n, n ∈ notifications s →
       Notification.taskId n ∈ Task._id <$> tasks s.

(** Every notification is an assignment notice. *)
Definition only_assignments (s : store) : Prop :=
  ∀ n, n ∈ notifications s →
       Notification.type n = Notification.task_assigned.

(** * Properties *)

(** ** Running handlers *)

Ltac run :=
  unfold handle, try_catch, route,
    get_tasks, get_tasks_created, get_tasks_assigned, post_task, put_task,
    patch_task_status, delete_task, get_notifications,
    patch_notification_read, post_mark_all_read, get_users_search,
    Task_create, Notification_insertMany, Task_findByIdAndUpdate,
    mbind, M_bind, respond, mret, M_ret, reading, writing, throw;
  cbn beta iota zeta.

Lemma findById_task_id id coll t :
  Task.findById id coll = Some t → Task._id t = id.
Proof.
  unfold Task.findById. intros H. apply find_some in H as [_ H].
  by apply N.eqb_eq.
Qed.

Lemma findById_task_elem id coll t :
  Task.findById id coll = Some t → t ∈ coll.
Proof.
  unfold Task.findById. intros H. apply find_some in H as [H _].
  by apply list_elem_of_In.
Qed.

Lemma findById_notification_id id coll n :
  Notification.findById id coll = Some n → Notification._id n = id.
Proof.
  unfold Notification.findById. intros H. apply find_some in H as [_ H].
  by apply N.eqb_eq.
Qed.

Lemma findById_notification_elem id coll n :
  Notification.findById id coll = Some n → n ∈ coll.
Proof.
  unfold Notification.findById. intros H. apply find_some in H as [H _].
  by apply list_elem_of_In.
Qed.

(** ** Authorization *)

(** C5. For an existing task, a caller who neither created it nor is among
    its assignees is answered 403 by PUT /tasks/:id, PATCH /tasks/:id/status
    and DELETE /tasks/:id, and the store is left as it was. *)
Theorem stranger_is_forbidden cfg now caller id b status s t :
  Task.findById id (tasks s) = Some t →
  Task.createdBy t ≠ caller →
  caller ∉ Task.assignedTo t →
  handle cfg (PutTask now caller id b) s
    = ({| status := 403;
          body := JMessage "Not authorized to update this task" |}, s)
  ∧ handle cfg (PatchTaskStatus caller id status) s
    = ({| status := 403;
          body := JMessage "Not authorized to update this task" |}, s)
  ∧ handle cfg (DeleteTask caller id) s
    = ({| status := 403;
          body := JMessage "Not authorized to delete this task" |}, s).
Proof.
  intros Hfind Hcreator Hassignee.
  repeat split; run; rewrite Hfind; by rewrite bool_decide_eq_true_2.
Qed.

(** ** Marking notifications read *)

Lemma findById_save id coll n m :
  Notification.findById id coll = Some n →
  Notification._id m = id →
  Notification.findById id (Notification.save m coll) = Some m.
Proof.
  unfold Notification.findById. intros Hfind <-.
  induction coll as [|d coll IH]; [done|].
  cbn [List.find Notification.save] in *.
  destruct (Notification._id d =? Notification._id m) eqn:Hd.
  - cbn [List.find]. by rewrite N.eqb_refl.
  - cbn [List.find]. rewrite Hd. auto.
Qed.

Lemma save_save m coll :
  Notification.save m (Notification.save m coll) = Notification.save m coll.
Proof.
  induction coll as [|d coll IH]; [done|].
  cbn [Notification.save].
  destruct (Notification._id d =? Notification._id m) eqn:Hd;
    cbn [Notification.save].
  - by rewrite N.eqb_refl.
  - by rewrite Hd, IH.
Qed.

(** C8. Mark-read on a notification the caller owns succeeds twice in a row
    with the same reply, a record with [read = true]; the second call leaves
    the store as the first one left it. *)
Theorem mark_read_idempotent cfg caller id s n :
  Notification.findById id (notifications s) = Some n →
  Notification.userId n = caller →
  let r := {| status := 200; body := JNotification (Notification.set_read n) |} in
  ∃ s1,
    handle cfg (PatchNotificationRead caller id) s = (r, s1)
    ∧ handle cfg (PatchNotificationRead caller id) s1 = (r, s1)
    ∧ Notification._id (Notification.set_read n) = id
    ∧ Notification.read (Notification.set_read n) = true.
Proof.
  intros Hfind Howner r.
  pose proof (findById_notification_id _ _ _ Hfind) as Hid.
  exists (with_notifications
            (Notification.save (Notification.set_read n) (notifications s)) s).
  split; [|split; [|done]].
  - run. rewrite Hfind.
    by rewrite bool_decide_eq_false_2 by (intros H; by apply H).
  - run. cbn [notifications with_notifications].
    rewrite (findById_save id _ n (Notification.set_read n) Hfind Hid).
    rewrite bool_decide_eq_false_2 by (intros H; by apply H).
    unfold with_notifications; cbn [notifications users tasks next_oid].
    change (Notification.set_read (Notification.set_read n))
      with (Notification.set_read n).
    by rewrite save_save.
Qed.

(** ** Inserting notifications *)

Lemma build_all_length now next ds :
  length (Notification.build_all now next ds) = length ds.
Proof.
  revert next. induction ds as [|d ds IH]; intros next; [done|].
  cbn [Notification.build_all length]. by rewrite IH.
Qed.

Lemma build_all_userId now next ds :
  Notification.userId <$> Notification.build_all now next ds
  = Notification.d_userId <$> ds.
Proof.
  revert next. induction ds as [|d ds IH]; intros next; [done|].
  cbn [Notification.build_all fmap list_fmap]. f_equal. apply IH.
Qed.

Lemma elem_of_build_all n now next ds :
  n ∈ Notification.build_all now next ds →
  ∃ d k, d ∈ ds ∧ n = Notification.build now k d
         ∧ next ≤ k < next + N.of_nat (length ds).
Proof.
  revert next. induction ds as [|d ds IH]; intros next Hn.
  - by apply elem_of_nil in Hn.
  - cbn [Notification.build_all] in Hn.
    apply elem_of_cons in Hn as [->|Hn].
    + exists d, next. split; [left|]. split; [done|]. cbn [length]. lia.
    + apply IH in Hn as (d' & k & Hd' & -> & Hk).
      exists d', k. split; [by right|]. split; [done|]. cbn [length]. lia.
Qed.

Lemma build_all_NoDup now next ds :
  NoDup (Notification._id <$> Notification.build_all now next ds).
Proof.
  revert next. induction ds as [|d ds IH]; intros next.
  - constructor.
  - cbn [Notification.build_all fmap list_fmap]. constructor; [|apply IH].
    intros Hin. apply list_elem_of_fmap in Hin as (n & Hid & Hn).
    apply elem_of_build_all in Hn as (d' & k & _ & -> & Hk).
    cbn in Hid. lia.
Qed.

(** A message made from a template with a non-empty fixed part passes the
    [required] check. *)
Lemma task_assigned_to_new_valid taskId title us :
  forallb Notification.valid (task_assigned_to_new taskId title <$> us) = true.
Proof. induction us as [|u us IH]; [done|]. cbn. apply IH. Qed.

Lemma task_assigned_to_existing_valid taskId title us :
  forallb Notification.valid (task_assigned_to_existing taskId title <$> us) = true.
Proof. induction us as [|u us IH]; [done|]. cbn. apply IH. Qed.

Lemma find_task_app_fresh id coll t :
  Forall (λ t', Task._id t' ≠ id) coll →
  Task._id t = id →
  Task.findById id (coll ++ [t]) = Some t.
Proof.
  unfold Task.findById. intros Hfresh <-.
  induction Hfresh as [|t' coll Hne _ IH]; cbn [List.find app].
  - by rewrite N.eqb_refl.
  - apply N.eqb_neq in Hne. by rewrite Hne.
Qed.

(** ** Creating tasks *)

Lemma post_task_invalid cfg now caller b s :
  Task.cast (task_schema cfg) (body_content b) = None →
  handle cfg (PostTask now caller b) s
  = ({| status := 500; body := JMessage "Server error" |}, s).
Proof. intros Hcast. run. unfold Task_create. by rewrite Hcast. Qed.

Lemma post_task_no_list cfg now caller b s content' :
  Task.cast (task_schema cfg) (body_content b) = Some content' →
  body_assignedTo b = None →
  handle cfg (PostTask now caller b) s
  = ({| status := 500; body := JMessage "Server error" |},
     {| users := users s;
        tasks := tasks s ++
          [ {| Task._id := next_oid s; Task.content := content';
               Task.createdBy := caller; Task.assignedTo := [];
               Task.createdAt := now |} ];
        notifications := notifications s;
        next_oid := N.succ (next_oid s) |}).
Proof. intros Hcast Hlist. run. unfold Task_create. by rewrite Hcast, Hlist. Qed.

Lemma post_task_created cfg now caller b s content' us :
  Forall (λ t, Task._id t < next_oid s) (tasks s) →
  Task.cast (task_schema cfg) (body_content b) = Some content' →
  body_assignedTo b = Some us →
  let task :=
    {| Task._id := next_oid s; Task.content := content';
       Task.createdBy := caller; Task.assignedTo := us;
       Task.createdAt := now |} in
  handle cfg (PostTask now caller b) s
  = ({| status := 201; body := JTask (Some (populate_task (users s) task)) |},
     {| users := users s;
        tasks := tasks s ++ [task];
        notifications := notifications s ++
          Notification.build_all now (N.succ (next_oid s))
            (task_assigned_to_new (next_oid s) (Task.title (body_content b)) <$> us);
        next_oid := N.succ (next_oid s) + N.of_nat (length us) |}).
Proof.
  intros Hids Hcast Hlist task. run. unfold Task_create.
  rewrite Hcast, Hlist. cbn [default Task._id].
  unfold Notification_insertMany.
  rewrite task_assigned_to_new_valid.
  cbn [with_next_oid with_tasks with_notifications users tasks notifications next_oid].
  rewrite length_fmap.
  rewrite find_task_app_fresh; [done| |done].
  eapply Forall_impl; [exact Hids|]. intros t' Ht'. cbn in Ht'. lia.
Qed.

(** ** How requests move the store *)

Lemma save_ids m coll :
  Notification._id <$> Notification.save m coll = Notification._id <$> coll.
Proof.
  induction coll as [|d coll IH]; [done|].
  cbn [Notification.save].
  destruct (Notification._id d =? Notification._id m) eqn:Hd; cbn.
  - apply N.eqb_eq in Hd. by rewrite Hd.
  - by rewrite IH.
Qed.

Lemma elem_of_save n' m coll :
  n' ∈ Notification.save m coll → n' = m ∨ n' ∈ coll.
Proof.
  induction coll as [|d coll IH]; cbn [Notification.save]; [by right|].
  destruct (Notification._id d =? Notification._id m).
  - intros [->|?]%elem_of_cons; [by left|right; by right].
  - intros [->|H]%elem_of_cons; [right; by left|].
    destruct (IH H); [by left|right; by right].
Qed.

Lemma updateMany_ids sel coll :
  Notification._id <$> Notification.updateMany sel Notification.set_read coll
  = Notification._id <$> coll.
Proof.
  induction coll as [|d coll IH]; [done|].
  cbn. rewrite <- IH. by destruct (sel d).
Qed.

Lemma findByIdAndUpdate_ids id u coll :
  Task._id <$> (Task.findByIdAndUpdate id u coll).2 = Task._id <$> coll.
Proof.
  induction coll as [|t coll IH]; [done|].
  cbn [Task.findByIdAndUpdate].
  destruct (Task._id t =? id); [done|].
  destruct (Task.findByIdAndUpdate id u coll) as [r coll'].
  cbn in *. by rewrite IH.
Qed.

Lemma deleteOne_sublist id coll : Task.deleteOne id coll `sublist_of` coll.
Proof.
  induction coll as [|t coll IH]; [done|].
  cbn [Task.deleteOne]. destruct (Task._id t =? id).
  - by apply sublist_cons.
  - by apply sublist_skip.
Qed.

Lemma bounded_ids {A} (f : A → oid) (k : oid) (l : list A) :
  Forall (λ x, f x < k) l ↔ Forall (λ i, i < k) (f <$> l).
Proof. by rewrite Forall_fmap. Qed.

Lemma sublist_Forall {A} (P : A → Prop) (l1 l2 : list A) :
  l1 `sublist_of` l2 → Forall P l2 → Forall P l1.
Proof.
  rewrite !Forall_forall. intros Hsub H x Hx. apply H.
  by eapply elem_of_sublist.
Qed.

Lemma notifications_move_wf k k' ns ns' :
  notifications_move k k' ns ns' → k ≤ k' →
  Forall (λ i, i < k) (Notification._id <$> ns) →
  NoDup (Notification._id <$> ns) →
  Forall (λ i, i < k') (Notification._id <$> ns')
  ∧ NoDup (Notification._id <$> ns').
Proof.
  intros Hmove Hk Hbound Hnodup.
  assert (Hbound' : Forall (λ i, i < k') (Notification._id <$> ns)).
  { eapply Forall_impl; [exact Hbound|]. intros i Hi. cbn in Hi. lia. }
  destruct Hmove as [|n Hn|sel|now j ds Hj Hj'|sel].
  - done.
  - by rewrite save_ids.
  - by rewrite updateMany_ids.
  - rewrite fmap_app. split.
    + apply Forall_app. split; [done|].
      apply Forall_forall. intros i (n & -> & Hn)%list_elem_of_fmap.
      apply elem_of_build_all in Hn as (d & i & _ & -> & Hi). cbn. lia.
    + apply NoDup_app. split; [done|]. split; [|apply build_all_NoDup].
      intros i Hold (n & -> & Hn)%list_elem_of_fmap.
      apply elem_of_build_all in Hn as (d & i & _ & -> & Hi).
      rewrite Forall_forall in Hbound. apply Hbound in Hold. cbn in Hold. lia.
  - assert (Hsub : Notification._id <$> Notification.deleteMany sel ns
                   `sublist_of` Notification._id <$> ns).
    { apply fmap_sublist. apply sublist_filter. }
    split; [by eapply sublist_Forall|by eapply sublist_NoDup].
Qed.

Lemma tasks_move_wf k k' ts ts' :
  tasks_move k k' ts ts' → k ≤ k' →
  Forall (λ i, i < k) (Task._id <$> ts) →
  NoDup (Task._id <$> ts) →
  Forall (λ i, i < k') (Task._id <$> ts') ∧ NoDup (Task._id <$> ts').
Proof.
  intros Hmove Hk Hbound Hnodup.
  assert (Hbound' : Forall (λ i, i < k') (Task._id <$> ts)).
  { eapply Forall_impl; [exact Hbound|]. intros i Hi. cbn in Hi. lia. }
  destruct Hmove as [|t Ht|id u|id].
  - done.
  - rewrite fmap_app. split.
    + apply Forall_app. split; [done|]. repeat constructor. lia.
    + apply NoDup_app. split; [done|]. split; [|apply NoDup_singleton].
      intros i Hold ->%list_elem_of_singleton.
      rewrite Forall_forall in Hbound. apply Hbound in Hold. cbn in Hold. lia.
  - by rewrite findByIdAndUpdate_ids.
  - assert (Hsub : Task._id <$> Task.deleteOne id ts `sublist_of` Task._id <$> ts).
    { apply fmap_sublist. apply deleteOne_sublist. }
    split; [by eapply sublist_Forall|by eapply sublist_NoDup].
Qed.

Lemma handle_moves cfg req s r s' :
  handle cfg req s = (r, s') →
  users s' = users s
  ∧ next_oid s ≤ next_oid s'
  ∧ notifications_move (next_oid s) (next_oid s') (notifications s) (notifications s')
  ∧ tasks_move (next_oid s) (next_oid s') (tasks s) (tasks s').
Proof.
  destruct req; run; intros H.
  all: repeat (first [case_match | case_bool_decide]); simplify_eq/=.
  all: repeat match goal with
         | H : Task.findByIdAndUpdate ?i ?u ?ts = (_, ?l) |- _ =>
             replace l with (Task.findByIdAndUpdate i u ts).2 by (by rewrite H);
             clear H
         end.
  all: repeat split; try lia; try (constructor; cbn; lia).
  apply notifications_saved. by eapply findById_notification_elem.
Qed.

Lemma handle_wf cfg req s : wf s → wf (handle cfg req s).2.
Proof.
  intros [Ht Hn Htd Hnd].
  destruct (handle cfg req s) as [r s'] eqn:Hrun. cbn [snd].
  apply handle_moves in Hrun as (_ & Hk & Hnm & Htm).
  apply bounded_ids in Ht, Hn.
  destruct (notifications_move_wf _ _ _ _ Hnm Hk Hn Hnd) as [Hn' Hnd'].
  destruct (tasks_move_wf _ _ _ _ Htm Hk Ht Htd) as [Ht' Htd'].
  split; [by apply bounded_ids|by apply bounded_ids|done|done].
Qed.

Lemma initial_wf us : wf (initial us).
Proof. split; cbn; constructor. Qed.

Lemma reachable_wf cfg s : reachable cfg s → wf s.
Proof.
  induction 1 as [us|s req _ IH]; [apply initial_wf|by apply handle_wf].
Qed.

(** ** The [read] flag *)

Lemma notifications_move_read k k' ns ns' :
  notifications_move k k' ns ns' →
  ∀ n', n' ∈ ns' → Notification._id n' < k →
  ∃ n, n ∈ ns ∧ Notification._id n = Notification._id n'
       ∧ (Notification.read n = true → Notification.read n' = true).
Proof.
  intros Hmove n' Hn' Hold.
  destruct Hmove as [|n0 Hn0|sel|now j ds Hj Hj'|sel].
  - by exists n'.
  - apply elem_of_save in Hn' as [->|Hn'].
    + by exists n0.
    + by exists n'.
  - unfold Notification.updateMany in Hn'.
    apply list_elem_of_fmap in Hn' as (n & -> & Hn).
    exists n. split; [done|]. by destruct (sel n).
  - apply elem_of_app in Hn' as [Hn'|Hn'].
    + by exists n'.
    + apply elem_of_build_all in Hn' as (d & i & _ & -> & Hi).
      cbn in Hold. lia.
  - unfold Notification.deleteMany in Hn'.
    apply list_elem_of_filter in Hn' as [_ Hn']. by exists n'.
Qed.

Lemma steps_read cfg s s' :
  steps cfg s s' → wf s →
  next_oid s ≤ next_oid s'
  ∧ ∀ n', n' ∈ notifications s' → Notification._id n' < next_oid s →
      ∃ n, n ∈ notifications s ∧ Notification._id n = Notification._id n'
           ∧ (Notification.read n = true → Notification.read n' = true).
Proof.
  induction 1 as [s|s req s' _ IH]; intros Hwf.
  - split; [lia|]. intros n' Hn' _. by exists n'.
  - destruct (handle cfg req s) as [r s1] eqn:Hrun.
    pose proof (handle_wf cfg req s Hwf) as Hwf1.
    rewrite Hrun in Hwf1. cbn [snd] in IH, Hwf1.
    apply handle_moves in Hrun as (_ & Hk & Hnm & _).
    destruct (IH Hwf1) as [Hk1 Hback]. split; [lia|].
    intros n' Hn' Hold.
    destruct (Hback n') as (n1 & Hn1 & Hid1 & Hread1); [done|lia|].
    destruct (notifications_move_read _ _ _ _ Hnm n1 Hn1)
      as (n & Hn & Hid & Hread); [lia|].
    exists n. split; [done|]. split; [congruence|auto].
Qed.

Lemma same_id_same_notification (ns : list Notification.doc) n m :
  NoDup (Notification._id <$> ns) →
  n ∈ ns → m ∈ ns → Notification._id n = Notification._id m → n = m.
Proof.
  induction ns as [|d ns IH]; intros Hnodup Hn Hm Hid.
  - by apply elem_of_nil in Hn.
  - cbn in Hnodup. apply NoDup_cons in Hnodup as [Hd Hnodup].
    apply elem_of_cons in Hn as [->|Hn], Hm as [->|Hm]; [done| | |by apply IH].
    + destruct Hd. rewrite Hid. apply list_elem_of_fmap. by exists m.
    + destruct Hd. rewrite <- Hid. apply list_elem_of_fmap. by exists n.
Qed.

(** C7. Along any sequence of requests (every route of the three files)
    from a reachable store, a notification whose [read] flag is [true] never
    shows [read = false] again for as long as it exists. *)
Theorem read_never_reverts cfg s s' n n' :
  reachable cfg s → steps cfg s s' →
  n ∈ notifications s → n' ∈ notifications s' →
  Notification._id n' = Notification._id n →
  Notification.read n = true → Notification.read n' = true.
Proof.
  intros Hreach Hsteps Hn Hn' Hid Hread.
  pose proof (reachable_wf _ _ Hreach) as Hwf.
  destruct (steps_read _ _ _ Hsteps Hwf) as [_ Hback].
  assert (Hold : Notification._id n' < next_oid s).
  { rewrite Hid. destruct Hwf as [_ Hbound _ _].
    rewrite Forall_forall in Hbound. by apply Hbound. }
  destruct (Hback n' Hn' Hold) as (n0 & Hn0 & Hid0 & Hread0).
  assert (n0 = n) as ->; [|auto].
  destruct Hwf as [_ _ _ Hnodup].
  eapply same_id_same_notification; [done..|congruence].
Qed.

(** ** Notifications on creation *)

(** C1. When POST /tasks with [assignedTo = us] succeeds (201), one task is
    added and returned, and the notifications afterwards are those from
    before followed by [length us] new ones, one per entry of [us] in order;
    each new one has type [task_assigned], refers to the created task, and
    has an [_id] no earlier notification has.  Its message is the text
    [You have been assigned a new task: ] followed by the title that was
    sent, character for character when that is a string, and by [null] or
    [undefined] when it is [null] or missing. *)
Theorem create_notifies_each_assignee cfg now caller content us s r s' :
  wf s →
  handle cfg (PostTask now caller
                {| body_content := content; body_assignedTo := Some us |}) s
    = (r, s') →
  status r = 201%nat →
  ∃ task new,
    body r = JTask (Some (populate_task (users s') task))
    ∧ tasks s' = tasks s ++ [task]
    ∧ Task.createdBy task = caller
    ∧ Task.assignedTo task = us
    ∧ notifications s' = notifications s ++ new
    ∧ length new = length us
    ∧ Notification.userId <$> new = us
    ∧ NoDup (Notification._id <$> new)
    ∧ Forall (λ n,
        Notification.type n = Notification.task_assigned
        ∧ Notification.taskId n = Task._id task
        ∧ Notification.message n
          = "You have been assigned a new task: "
            +:+ match Task.title content with
                | Some (JStr title) => title
                | Some JNull => "null"
                | None => "undefined"
                end
        ∧ Notification._id n ∉ Notification._id <$> notifications s) new.
Proof.
  intros Hwf Hrun Hcreated.
  set (b := {| body_content := content; body_assignedTo := Some us |}) in *.
  destruct (Task.cast (task_schema cfg) (body_content b)) as [content'|] eqn:Hcast.
  - rewrite (post_task_created cfg now caller b s content' us) in Hrun;
      [|by destruct Hwf|done|done].
    injection Hrun as <- <-. cbn [users tasks notifications body].
    eexists _, _. split; [done|].
    split; [done|]. split; [done|]. split; [done|]. split; [done|].
    split; [by rewrite build_all_length, length_fmap|].
    split.
    { rewrite build_all_userId, <- list_fmap_compose.
      rewrite <- (list_fmap_id us) at 2. done. }
    split; [apply build_all_NoDup|].
    apply Forall_forall. intros n Hn.
    apply elem_of_build_all in Hn as (d & k & Hd & -> & Hk).
    apply list_elem_of_fmap in Hd as (u & -> & _).
    split; [done|]. split; [done|].
    split; [cbn; by destruct (Task.title content) as [[|title]|]|].
    cbn. intros (n0 & Hid & Hn0)%list_elem_of_fmap.
    destruct Hwf as [_ Hbound _ _].
    rewrite Forall_forall in Hbound. apply Hbound in Hn0. lia.
  - rewrite post_task_invalid in Hrun by done.
    injection Hrun as <- <-. done.
Qed.

(** ** Updating tasks *)

Lemma findByIdAndUpdate_found id u coll t :
  Task.findById id coll = Some t →
  (Task.findByIdAndUpdate id u coll).1 = Some (Task.apply_set u t)
  ∧ Task.findById id (Task.findByIdAndUpdate id u coll).2
    = Some (Task.apply_set u t).
Proof.
  unfold Task.findById.
  induction coll as [|t0 coll IH]; [done|].
  cbn [List.find Task.findByIdAndUpdate].
  destruct (Task._id t0 =? id) eqn:Hid.
  - intros [= ->]. cbn. by rewrite Hid.
  - intros Hfind. destruct (IH Hfind) as [IH1 IH2].
    destruct (Task.findByIdAndUpdate id u coll) as [r coll'].
    cbn in *. by rewrite Hid.
Qed.

Lemma put_task_updated cfg now caller id b s t :
  Task.findById id (tasks s) = Some t →
  Task.createdBy t = caller →
  let updates :=
    {| Task.u_content := body_content b;
       Task.u_assignedTo := body_assignedTo b |} in
  handle cfg (PutTask now caller id b) s
  = ({| status := 200;
        body := JTask (Some (populate_task (users s) (Task.apply_set updates t))) |},
     {| users := users s;
        tasks := (Task.findByIdAndUpdate id updates (tasks s)).2;
        notifications := notifications s ++
          Notification.build_all now (next_oid s)
            (task_assigned_to_existing (Task._id t) (Task.title (body_content b))
               <$> newAssignees t (body_assignedTo b));
        next_oid := next_oid s + N.of_nat (length (newAssignees t (body_assignedTo b))) |}).
Proof.
  intros Hfind Hcreator updates. run. rewrite Hfind.
  rewrite bool_decide_eq_false_2 by (intros H; by apply H).
  destruct (findByIdAndUpdate_found id updates _ _ Hfind) as [Hupd _].
  unfold newAssignees. destruct (body_assignedTo b) as [us|] eqn:Hus.
  - case_bool_decide as Hnew.
    + rewrite task_assigned_to_existing_valid.
      cbn [with_next_oid with_tasks with_notifications
             users tasks notifications next_oid].
      fold updates.
      destruct (Task.findByIdAndUpdate id updates (tasks s)) as [r ts].
      cbn in Hupd. subst r. cbn. by rewrite length_fmap.
    + assert (filter (λ userId, userId ∉ Task.assignedTo t) us = []) as ->.
      { destruct (filter _ us); [done|]. cbn in Hnew. lia. }
      fold updates.
      destruct (Task.findByIdAndUpdate id updates (tasks s)) as [r ts].
      cbn in Hupd. subst r. cbn. rewrite app_nil_r, N.add_0_r. done.
  - fold updates.
    destruct (Task.findByIdAndUpdate id updates (tasks s)) as [r ts].
    cbn in Hupd. subst r. cbn. rewrite app_nil_r, N.add_0_r. done.
Qed.

Lemma occurrences_fmap {A} (f : A → oid) (u : oid) (l : list A) :
  occurrences u (f <$> l) = length (filter (λ x, f x = u) l).
Proof.
  unfold occurrences. induction l as [|x l IH]; [done|].
  cbn [fmap list_fmap]. rewrite !filter_cons.
  destruct (decide (f x = u)); cbn; by rewrite IH.
Qed.

Lemma occurrences_filter (P : oid → Prop) `{!∀ x, Decision (P x)} u l :
  occurrences u (filter P l) = if decide (P u) then occurrences u l else 0%nat.
Proof.
  unfold occurrences. induction l as [|x l IH].
  - by destruct (decide (P u)).
  - rewrite (filter_cons P). destruct (decide (P x)) as [Hx|Hx].
    + rewrite !filter_cons. destruct (decide (x = u)) as [->|]; cbn.
      * rewrite IH. by destruct (decide (P u)).
      * apply IH.
    + rewrite IH. destruct (decide (P u)) as [Hu|]; [|done].
      rewrite filter_cons_False; [done|]. by intros ->.
Qed.

Lemma occurrences_none u l : u ∉ l → occurrences u l = 0%nat.
Proof.
  unfold occurrences. induction l as [|x l IH]; intros Hu; [done|].
  apply not_elem_of_cons in Hu as [Hx Hu].
  rewrite filter_cons_False by congruence. by apply IH.
Qed.

Lemma occurrences_once u l : NoDup l → u ∈ l → occurrences u l = 1%nat.
Proof.
  induction l as [|x l IH]; intros Hnodup Hu; [by apply elem_of_nil in Hu|].
  apply NoDup_cons in Hnodup as [Hx Hnodup]. unfold occurrences.
  destruct (decide (x = u)) as [->|Hne].
  - rewrite filter_cons_True by done. cbn [length].
    f_equal. by apply occurrences_none.
  - rewrite filter_cons_False by done.
    apply elem_of_cons in Hu as [->|Hu]; [done|]. by apply IH.
Qed.

(** C2, amended. PUT /tasks/:id by the creator with an [assignedTo] list
    inserts [task_assigned] notifications for exactly the entries of the
    list that are not in the stored [assignedTo], in order: an id already
    assigned gets none, an id not yet assigned gets one per time it is
    listed, which is exactly one when the list has no repetitions.  Going
    from [[u1; u2]] to [[u1; u2; u3]] inserts a single one, for [u3]. *)
Theorem update_notifies_only_new_assignees cfg now caller id content us s t :
  Task.findById id (tasks s) = Some t →
  Task.createdBy t = caller →
  ∃ r s' emitted,
    handle cfg (PutTask now caller id
                  {| body_content := content; body_assignedTo := Some us |}) s
      = (r, s')
    ∧ status r = 200%nat
    ∧ notifications s' = notifications s ++ emitted
    ∧ Forall (λ n, Notification.type n = Notification.task_assigned
                   ∧ Notification.taskId n = id) emitted
    ∧ Notification.userId <$> emitted
      = filter (λ u, u ∉ Task.assignedTo t) us
    ∧ (∀ u, length (filter (λ n, Notification.userId n = u) emitted)
            = if decide (u ∈ Task.assignedTo t) then 0%nat else occurrences u us)
    ∧ (NoDup us → ∀ u, u ∈ us → u ∉ Task.assignedTo t →
       length (filter (λ n, Notification.userId n = u) emitted) = 1%nat)
    ∧ (∀ u1 u2 u3,
         Task.assignedTo t = [u1; u2] → us = [u1; u2; u3] →
         u3 ≠ u1 → u3 ≠ u2 →
         ∃ n, emitted = [n] ∧ Notification.userId n = u3).
Proof.
  intros Hfind Hcreator.
  set (b := {| body_content := content; body_assignedTo := Some us |}).
  pose proof (put_task_updated cfg now caller id b s t Hfind Hcreator) as Hrun.
  cbn zeta in Hrun. cbn [b body_assignedTo newAssignees] in Hrun.
  set (new := filter (λ u, u ∉ Task.assignedTo t) us) in *.
  eexists _, _, _. split; [exact Hrun|].
  split; [done|]. split; [done|].
  assert (Hto : Notification.userId <$>
                  Notification.build_all now (next_oid s)
                    (task_assigned_to_existing (Task._id t)
                       (Task.title (body_content b)) <$> new) = new).
  { rewrite build_all_userId, <- list_fmap_compose.
    rewrite <- (list_fmap_id new) at 2. done. }
  assert (Hcount : ∀ u,
    length (filter (λ n, Notification.userId n = u)
              (Notification.build_all now (next_oid s)
                 (task_assigned_to_existing (Task._id t)
                    (Task.title (body_content b)) <$> new)))
    = if decide (u ∈ Task.assignedTo t) then 0%nat else occurrences u us).
  { intros u. rewrite <- occurrences_fmap, Hto. unfold new.
    rewrite occurrences_filter.
    destruct (decide (u ∈ Task.assignedTo t)).
    + by rewrite decide_False by auto.
    + by rewrite decide_True. }
  split; [|split; [exact Hto|split; [exact Hcount|split]]].
  - apply Forall_forall. intros n Hn.
    apply elem_of_build_all in Hn as (d & k & Hd & -> & _).
    apply list_elem_of_fmap in Hd as (u & -> & _).
    split; [done|]. cbn. by eapply findById_task_id.
  - intros Hnodup u Hu Hfresh. rewrite Hcount.
    rewrite decide_False by done. by apply occurrences_once.
  - intros u1 u2 u3 Hold -> Hne1 Hne2.
    assert (new = [u3]) as Hnew.
    { unfold new. rewrite Hold.
      rewrite filter_cons_False by (intros H; apply H; left).
      rewrite filter_cons_False by (intros H; apply H; right; left).
      rewrite filter_cons_True; [done|].
      rewrite !elem_of_cons, elem_of_nil. intros [?|[?|[]]]; congruence. }
    rewrite Hnew. cbn. eexists. split; [done|]. done.
Qed.

(** C2, as stated, fails: the handler filters the supplied list entry by
    entry and does not remove repetitions.  Alice's task [plan] is assigned
    to Bob; she sends [assignedTo = [carol; carol]].  Carol is in the list
    and was not assigned before, and two notifications are written for her,
    not one. *)
Lemma update_repeated_id_is_notified_twice :
  let sent :=
    {| body_content := titled "Plan"; body_assignedTo := Some [carol; carol] |} in
  let first :=
    {| Notification._id := 2; Notification.type := Notification.task_assigned;
       Notification.taskId := 0;
       Notification.message := "You have been assigned to the task: Plan";
       Notification.userId := carol;
       Notification.read := false; Notification.createdAt := 9 |} in
  let second :=
    {| Notification._id := 3; Notification.type := Notification.task_assigned;
       Notification.taskId := 0;
       Notification.message := "You have been assigned to the task: Plan";
       Notification.userId := carol;
       Notification.read := false; Notification.createdAt := 9 |} in
  Task.findById 0 (tasks planned) = Some plan
  ∧ Task.createdBy plan = alice
  ∧ status (handle demo (PutTask 9 alice 0 sent) planned).1 = 200%nat
  ∧ notifications (handle demo (PutTask 9 alice 0 sent) planned).2
    = notifications planned ++ [first; second]
  ∧ carol ∈ [carol; carol]
  ∧ (carol ∉ Task.assignedTo plan)
  ∧ length (filter (λ n, Notification.userId n = carol) [first; second]) = 2%nat
  ∧ ¬ ∀ u, u ∈ [carol; carol] → u ∉ Task.assignedTo plan →
           length (filter (λ n, Notification.userId n = u) [first; second])
           = 1%nat.
Proof.
  cbv zeta.
  assert (Hnew : carol ∉ Task.assignedTo plan).
  { cbn. rewrite list_elem_of_singleton. discriminate. }
  split; [reflexivity|]. split; [reflexivity|].
  split; [reflexivity|]. split; [reflexivity|].
  split; [left|]. split; [exact Hnew|]. split; [reflexivity|].
  intros Hone. specialize (Hone carol ltac:(left) Hnew).
  discriminate Hone.
Qed.

(** C9. PUT /tasks/:id by the creator leaves every content field that the
    body does not carry as it was stored, stores the value sent for each one
    it does carry, keeps [assignedTo] unless a list is sent, and never
    touches [_id], [createdBy] or [createdAt]. *)
Theorem update_keeps_unsupplied_fields cfg now caller id b s t :
  Task.findById id (tasks s) = Some t →
  Task.createdBy t = caller →
  ∃ r s' t',
    handle cfg (PutTask now caller id b) s = (r, s')
    ∧ status r = 200%nat
    ∧ body r = JTask (Some (populate_task (users s') t'))
    ∧ Task.findById id (tasks s') = Some t'
    ∧ kept_or_replaced (Task.title (body_content b))
        (Task.title (Task.content t)) (Task.title (Task.content t'))
    ∧ kept_or_replaced (Task.description (body_content b))
        (Task.description (Task.content t)) (Task.description (Task.content t'))
    ∧ kept_or_replaced (Task.status (body_content b))
        (Task.status (Task.content t)) (Task.status (Task.content t'))
    ∧ kept_or_replaced (Task.priority (body_content b))
        (Task.priority (Task.content t)) (Task.priority (Task.content t'))
    ∧ kept_or_replaced (Task.dueDate (body_content b))
        (Task.dueDate (Task.content t)) (Task.dueDate (Task.content t'))
    ∧ kept_or_replaced (body_assignedTo b)
        (Some (Task.assignedTo t)) (Some (Task.assignedTo t'))
    ∧ Task._id t' = Task._id t
    ∧ Task.createdBy t' = Task.createdBy t
    ∧ Task.createdAt t' = Task.createdAt t.
Proof.
  intros Hfind Hcreator.
  pose proof (put_task_updated cfg now caller id b s t Hfind Hcreator) as Hrun.
  cbn zeta in Hrun.
  set (updates := {| Task.u_content := body_content b;
                     Task.u_assignedTo := body_assignedTo b |}) in *.
  destruct (findByIdAndUpdate_found id updates _ _ Hfind) as [_ Hstored].
  eexists _, _, (Task.apply_set updates t). split; [exact Hrun|].
  split; [done|]. split; [done|]. split; [exact Hstored|].
  cbn [Task.apply_set Task.content Task.title Task.description Task.status
         Task.priority Task.dueDate Task.assignedTo Task._id Task.createdBy
         Task.createdAt updates Task.u_content Task.u_assignedTo].
  repeat split;
    try (intros Hnone; by rewrite Hnone);
    try (intros v Hsome; by rewrite Hsome).
Qed.

(** ** Deleting tasks *)

Lemma insert_desc_elem_of {A} (key : A → Z) x y (l : list A) :
  y ∈ insert_desc key x l ↔ y = x ∨ y ∈ l.
Proof.
  induction l as [|z l IH]; cbn [insert_desc].
  - by rewrite elem_of_cons.
  - destruct (key z <=? key x)%Z.
    + by rewrite elem_of_cons.
    + rewrite !elem_of_cons, IH. tauto.
Qed.

Lemma sort_desc_elem_of {A} (key : A → Z) y (l : list A) :
  y ∈ sort_desc key l ↔ y ∈ l.
Proof.
  unfold sort_desc. induction l as [|x l IH]; [done|].
  cbn [foldr]. by rewrite insert_desc_elem_of, elem_of_cons, IH.
Qed.

Lemma deleteOne_gone id coll :
  NoDup (Task._id <$> coll) →
  Task.findById id (Task.deleteOne id coll) = None.
Proof.
  unfold Task.findById.
  induction coll as [|t coll IH]; [done|].
  cbn [fmap list_fmap]. intros [Ht Hnodup]%NoDup_cons.
  cbn [Task.deleteOne]. destruct (Task._id t =? id) eqn:Hid.
  - apply N.eqb_eq in Hid. subst id.
    destruct (List.find _ coll) as [t'|] eqn:Hfind; [|done].
    apply find_some in Hfind as [Hin Heq].
    apply N.eqb_eq in Heq. destruct Ht. rewrite <- Heq.
    apply list_elem_of_fmap. exists t'. split; [done|by apply list_elem_of_In].
  - cbn [List.find]. rewrite Hid. by apply IH.
Qed.

Lemma delete_task_deleted cfg caller id s t :
  Task.findById id (tasks s) = Some t →
  Task.createdBy t = caller →
  handle cfg (DeleteTask caller id) s
  = ({| status := 200; body := JMessage "Task deleted" |},
     {| users := users s;
        tasks := Task.deleteOne id (tasks s);
        notifications :=
          Notification.deleteMany (λ n, Notification.taskId n =? id)
            (notifications s);
        next_oid := next_oid s |}).
Proof.
  intros Hfind Hcreator. run. rewrite Hfind.
  rewrite bool_decide_eq_false_2 by (intros H; by apply H).
  by rewrite (findById_task_id _ _ _ Hfind).
Qed.

(** C6. A successful DELETE /tasks/:id by the creator removes the task and
    every notification whose [taskId] is the task's id, and keeps the other
    notifications; GET /notifications afterwards, for any user, lists no
    notification that refers to the task. *)
Theorem delete_cascades_to_notifications cfg caller id s t :
  wf s →
  Task.findById id (tasks s) = Some t →
  Task.createdBy t = caller →
  ∃ s',
    handle cfg (DeleteTask caller id) s
      = ({| status := 200; body := JMessage "Task deleted" |}, s')
    ∧ Task.findById id (tasks s') = None
    ∧ (∀ n, n ∈ notifications s' ↔
            n ∈ notifications s ∧ Notification.taskId n ≠ id)
    ∧ ∀ user, ∃ listed,
        handle cfg (GetNotifications user) s'
          = ({| status := 200; body := JNotifications listed |}, s')
        ∧ ∀ pn, pn ∈ listed →
            Notification.userId (pn_doc pn) = user
            ∧ Notification.taskId (pn_doc pn) ≠ id
            ∧ ∀ tid title, pn_taskId pn = Some (tid, title) → tid ≠ id.
Proof.
  intros Hwf Hfind Hcreator.
  eexists. split; [by eapply delete_task_deleted|].
  cbn [tasks notifications].
  assert (Hgone : Task.findById id (Task.deleteOne id (tasks s)) = None).
  { apply deleteOne_gone. by destruct Hwf. }
  assert (Hleft : ∀ n,
    n ∈ Notification.deleteMany (λ n, Notification.taskId n =? id) (notifications s)
    ↔ n ∈ notifications s ∧ Notification.taskId n ≠ id).
  { intros n. unfold Notification.deleteMany. rewrite list_elem_of_filter.
    rewrite <- N.eqb_neq.
    destruct (Notification.taskId n =? id); cbn; intuition congruence. }
  split; [done|]. split; [done|].
  intros user. eexists. split.
  - run. cbn [notifications tasks]. done.
  - intros pn Hpn. apply sort_desc_elem_of in Hpn.
    apply list_elem_of_fmap in Hpn as (n & -> & Hn).
    apply list_elem_of_filter in Hn as [Huser Hn].
    apply Hleft in Hn as [_ Hn].
    cbn [populate_notification pn_doc pn_taskId].
    split; [done|]. split; [done|].
    intros tid title.
    destruct (Task.findById (Notification.taskId n) _) as [t'|] eqn:Hfind';
      [|done].
    intros [= <- _]. by rewrite (findById_task_id _ _ _ Hfind').
Qed.

(** ** Searching the user directory *)

Lemma append_nil s : EmptyString +:+ s = s.
Proof. reflexivity. Qed.

Lemma append_cons c a b : String c a +:+ b = String c (a +:+ b).
Proof. reflexivity. Qed.

Lemma lower_string_app a b :
  lower_string (a +:+ b) = lower_string a +:+ lower_string b.
Proof.
  induction a as [|c a IH]; [done|].
  cbn [lower_string]. rewrite !append_cons. cbn [lower_string]. by rewrite IH.
Qed.

Lemma lower_string_split s a b :
  lower_string s = a +:+ b →
  ∃ s1 s2, s = s1 +:+ s2 ∧ lower_string s1 = a ∧ lower_string s2 = b.
Proof.
  revert s. induction a as [|c a IH]; intros s Hs.
  - by exists EmptyString, s.
  - rewrite append_cons in Hs.
    destruct s as [|d s]; [done|]. cbn [lower_string] in Hs.
    injection Hs as Hc Hs.
    destruct (IH s Hs) as (s1 & s2 & -> & <- & <-).
    exists (String d s1), s2. rewrite append_cons. cbn [lower_string].
    by rewrite Hc.
Qed.

Lemma matches_here_literal q s :
  Regex.matches_here (Regex.Lit <$> list_ascii_of_string q) s = true
  ↔ ∃ post, lower_string s = lower_string q +:+ post.
Proof.
  revert s. induction q as [|c q IH]; intros s.
  - cbn [list_ascii_of_string fmap list_fmap Regex.matches_here lower_string].
    split; [by exists (lower_string s)|done].
  - cbn [list_ascii_of_string fmap list_fmap lower_string].
    destruct s as [|d s]; cbn [Regex.matches_here lower_string].
    + split; [done|]. intros [post H]. by rewrite append_cons in H.
    + cbn [Regex.atom_matches].
      rewrite andb_true_iff, Ascii.eqb_eq, IH. split.
      * intros [-> [post ->]]. exists post. by rewrite append_cons.
      * intros [post H]. rewrite append_cons in H. injection H as -> ->.
        split; [done|]. by exists post.
Qed.

Lemma matches_anywhere_split p s :
  Regex.matches_anywhere p s = true
  ↔ ∃ pre rest, s = pre +:+ rest ∧ Regex.matches_here p rest = true.
Proof.
  induction s as [|c s IH]; cbn [Regex.matches_anywhere].
  - rewrite orb_false_r. split.
    + intros H. by exists EmptyString, EmptyString.
    + intros (pre & rest & Hs & H).
      destruct pre; [|by rewrite append_cons in Hs].
      rewrite append_nil in Hs. by subst rest.
  - rewrite orb_true_iff, IH. split.
    + intros [H|(pre & rest & -> & H)].
      * by exists EmptyString, (String c s).
      * by exists (String c pre), rest.
    + intros (pre & rest & Hs & H). destruct pre as [|d pre].
      * rewrite append_nil in Hs. subst rest. by left.
      * rewrite append_cons in Hs. injection Hs as -> ->.
        right. by exists pre, rest.
Qed.

Lemma matches_anywhere_literal q s :
  Regex.matches_anywhere (Regex.Lit <$> list_ascii_of_string q) s = true
  ↔ contains_ci q s.
Proof.
  rewrite matches_anywhere_split. unfold contains_ci. split.
  - intros (pre & rest & -> & H). apply matches_here_literal in H as [post H].
    exists (lower_string pre), post. by rewrite lower_string_app, H.
  - intros (pre & post & H).
    apply lower_string_split in H as (s1 & s2 & -> & _ & H).
    exists s1, s2. split; [done|]. apply matches_here_literal. by exists post.
Qed.

Lemma compile_literal q :
  literal q →
  Regex.compile q = Regex.Compiled (Regex.Lit <$> list_ascii_of_string q).
Proof.
  unfold literal. induction q as [|c q IH]; intros Hq; [done|].
  cbn [Regex.compile list_ascii_of_string fmap list_fmap].
  assert (Hc : Regex.is_meta c = false) by (apply Hq; left).
  assert (Hbackslash : Ascii.eqb c "\" = false).
  { apply Ascii.eqb_neq. by intros ->. }
  assert (Hdot : Ascii.eqb c "." = false).
  { apply Ascii.eqb_neq. by intros ->. }
  rewrite Hbackslash, Hdot, Hc, IH; [done|].
  intros c' Hc'. apply Hq. by right.
Qed.

Lemma or_regex_i_literal q u :
  User.or_regex_i
    (Regex.matches_anywhere (Regex.Lit <$> list_ascii_of_string q))
    ["fullName"; "username"; "email"] u
  = true
  ↔ spec_matches q u.
Proof.
  unfold User.or_regex_i, spec_matches, User.regex_i. cbn [existsb].
  rewrite orb_false_r, !orb_true_iff. split.
  - intros [H|[H|H]];
      [destruct (User.fields u !! "fullName") as [v|]
      |destruct (User.fields u !! "username") as [v|]
      |destruct (User.fields u !! "email") as [v|]];
      try done; exists v; (split; [auto|by apply matches_anywhere_literal]).
  - intros (v & [Hv|[Hv|Hv]] & H); apply matches_anywhere_literal in H;
      rewrite Hv; auto.
Qed.

Lemma get_users_search_compiled cfg c q p s :
  Regex.compile (String c q) = Regex.Compiled p →
  handle cfg (GetUsersSearch (Some (String c q))) s
  = (ok_users (User.select_without "password" <$>
                 List.filter
                   (User.or_regex_i (Regex.matches_anywhere p)
                      ["fullName"; "username"; "email"])
                   (users s)), s).
Proof. intros Hp. run. unfold Regex.test_i. by rewrite Hp. Qed.

(** C3, amended. GET /users/search answers with no users when the query is
    absent or empty; for a query without regular-expression metacharacters
    it answers with exactly the users (password removed, in stored order) of
    whom [fullName], [username] or [email] contains the query as a
    case-insensitive substring. *)
Theorem search_literal_query_is_substring_search cfg q s :
  handle cfg (GetUsersSearch None) s = (ok_users [], s)
  ∧ handle cfg (GetUsersSearch (Some EmptyString)) s = (ok_users [], s)
  ∧ (q ≠ EmptyString → literal q →
     ∃ keep,
       handle cfg (GetUsersSearch (Some q)) s
         = (ok_users (User.select_without "password"
                        <$> List.filter keep (users s)), s)
       ∧ ∀ u, keep u = true ↔ spec_matches q u).
Proof.
  split; [done|]. split; [done|]. intros Hq Hlit.
  exists (User.or_regex_i
            (Regex.matches_anywhere (Regex.Lit <$> list_ascii_of_string q))
            ["fullName"; "username"; "email"]).
  split; [|apply or_regex_i_literal].
  destruct q as [|c q]; [done|].
  apply get_users_search_compiled. by apply compile_literal.
Qed.

Lemma bob_has_no_dot : ¬ spec_matches "." bob_doc.
Proof.
  intros (v & Hv & Hin).
  apply matches_anywhere_literal in Hin.
  destruct Hv as [Hv|[Hv|Hv]];
    vm_compute in Hv; injection Hv as <-; vm_compute in Hin; discriminate.
Qed.

(** C3, as stated, fails: the query is handed to [$regex] unescaped, so the
    query [.] is a wildcard.  It returns Bob, none of whose [fullName],
    [username], [email] contains a dot. *)
Lemma search_dot_is_a_wildcard :
  handle demo (GetUsersSearch (Some ".")) (initial directory)
    = (ok_users (User.select_without "password" <$> directory), initial directory)
  ∧ bob_doc ∈ directory
  ∧ ¬ spec_matches "." bob_doc
  ∧ ¬ ∃ keep,
        handle demo (GetUsersSearch (Some ".")) (initial directory)
          = (ok_users (User.select_without "password"
                         <$> List.filter keep (users (initial directory))),
             initial directory)
        ∧ ∀ u, keep u = true ↔ spec_matches "." u.
Proof.
  assert (Hrun : handle demo (GetUsersSearch (Some ".")) (initial directory)
                 = (ok_users (User.select_without "password" <$> directory),
                    initial directory))
    by reflexivity.
  split; [exact Hrun|]. split; [right; left|].
  split; [exact bob_has_no_dot|].
  intros (keep & Heq & Hkeep). rewrite Hrun in Heq.
  injection Heq as Heq. cbn [initial users directory List.filter] in Heq.
  destruct (keep bob_doc) eqn:Hbob.
  - by apply bob_has_no_dot, Hkeep.
  - destruct (keep alice_doc); cbn in Heq; apply (f_equal length) in Heq;
      discriminate.
Qed.

(** ** What the search reveals *)

Lemma regex_i_without_password test f u :
  f ≠ "password" →
  User.regex_i test f (User.select_without "password" u) = User.regex_i test f u.
Proof.
  intros Hf. unfold User.regex_i, User.select_without. cbn [User.fields].
  by rewrite lookup_delete_ne.
Qed.

Lemma or_regex_i_without_password test fs u :
  "password" ∉ fs →
  User.or_regex_i test fs (User.select_without "password" u)
  = User.or_regex_i test fs u.
Proof.
  unfold User.or_regex_i. induction fs as [|f fs IH]; intros Hfs; [done|].
  apply not_elem_of_cons in Hfs as [Hf Hfs].
  cbn [existsb]. rewrite regex_i_without_password by done. by rewrite IH.
Qed.

Lemma filter_after_projection test fs (us : list User.doc) :
  "password" ∉ fs →
  User.select_without "password" <$> List.filter (User.or_regex_i test fs) us
  = List.filter (User.or_regex_i test fs)
      (User.select_without "password" <$> us).
Proof.
  intros Hfs. induction us as [|u us IH]; [done|].
  cbn [List.filter fmap list_fmap].
  rewrite or_regex_i_without_password by done.
  destruct (User.or_regex_i test fs u); cbn [fmap list_fmap]; by rewrite IH.
Qed.

Lemma password_is_not_searched : "password" ∉ ["fullName"; "username"; "email"].
Proof. rewrite !elem_of_cons, elem_of_nil. intros [?|[?|[?|[]]]]; discriminate. Qed.

(** C4. Whatever the engine does with the pattern, no record in a search
    reply has a [password] field, and two stores whose users agree on
    everything but [password] get the same reply to every query. *)
Theorem search_never_shows_passwords cfg query :
  (∀ s us u,
     body (handle cfg (GetUsersSearch query) s).1 = JUsers us → u ∈ us →
     User.fields u !! "password" = None)
  ∧ (∀ s1 s2,
       User.select_without "password" <$> users s1
       = User.select_without "password" <$> users s2 →
       (handle cfg (GetUsersSearch query) s1).1
       = (handle cfg (GetUsersSearch query) s2).1).
Proof.
  split.
  - intros s us u. run.
    destruct query as [[|c q]|];
      [intros [= <-] Hu; by apply elem_of_nil in Hu
      | |intros [= <-] Hu; by apply elem_of_nil in Hu].
    destruct (Regex.test_i (regex_beyond cfg) (String c q)) as [test|];
      [|done].
    intros [= <-] Hu.
    apply list_elem_of_fmap in Hu as (u0 & -> & _).
    apply lookup_delete_eq.
  - intros s1 s2 Hsame. run.
    destruct query as [[|c q]|]; [done| |done].
    destruct (Regex.test_i (regex_beyond cfg) (String c q)) as [test|];
      [|done].
    cbn [fst].
    by rewrite !filter_after_projection, Hsame
      by apply password_is_not_searched.
Qed.

(** ** Creating a task without assignees *)

Lemma post_task_without_list_is_500 cfg now caller content s :
  (handle cfg (PostTask now caller
                 {| body_content := content; body_assignedTo := None |}) s).1
  = {| status := 500; body := JMessage "Server error" |}.
Proof.
  destruct (Task.cast (task_schema cfg) content) as [content'|] eqn:Hcast.
  - by erewrite post_task_no_list.
  - by rewrite post_task_invalid.
Qed.

(** C10. With [assignedTo: []] the task is created (201) and nothing is
    inserted into the notifications.  With [assignedTo] absent the handler
    first saves the task and then throws on [assignedTo.map]: the reply is
    500 and the task stays in the store. *)
Theorem create_without_assignedTo_throws :
  let task :=
    {| Task._id := 0; Task.content := quarterly;
       Task.createdBy := alice; Task.assignedTo := [];
       Task.createdAt := 5 |} in
  let saved :=
    {| users := directory; tasks := [task];
       notifications := []; next_oid := 1 |} in
  handle demo
    (PostTask 5 alice {| body_content := quarterly; body_assignedTo := Some [] |})
    (initial directory)
  = ({| status := 201;
        body := JTask (Some {| pt_doc := task;
                               pt_createdBy := Some (User.select_only display alice_doc);
                               pt_assignedTo := [] |}) |},
     saved)
  ∧ handle demo
      (PostTask 5 alice {| body_content := quarterly; body_assignedTo := None |})
      (initial directory)
    = ({| status := 500; body := JMessage "Server error" |}, saved).
Proof. split; reflexivity. Qed.

(** ** The properties on the sample data *)

Lemma planned_is_reachable : reachable demo planned.
Proof.
  exact (reachable_step demo (initial directory)
           (PostTask 5 alice
              {| body_content := titled "Plan"; body_assignedTo := Some [bob] |})
           (reachable_initial demo directory)).
Qed.

(** Alice creates the task [Quarterly report] for Bob and herself: both are
    told [You have been assigned a new task: Quarterly report]. *)
Lemma create_notifies_each_assignee_witness :
  ∃ r s',
    wf (initial directory)
    ∧ handle demo
        (PostTask 5 alice
           {| body_content := titled "Quarterly report";
              body_assignedTo := Some [bob; alice] |})
        (initial directory) = (r, s')
    ∧ status r = 201%nat
    ∧ notifications s'
      = [ {| Notification._id := 1;
             Notification.type := Notification.task_assigned;
             Notification.taskId := 0;
             Notification.message :=
               "You have been assigned a new task: Quarterly report";
             Notification.userId := bob;
             Notification.read := false; Notification.createdAt := 5 |};
          {| Notification._id := 2;
             Notification.type := Notification.task_assigned;
             Notification.taskId := 0;
             Notification.message :=
               "You have been assigned a new task: Quarterly report";
             Notification.userId := alice;
             Notification.read := false; Notification.createdAt := 5 |} ]
    ∧ ∃ task new,
        body r = JTask (Some (populate_task (users s') task))
        ∧ tasks s' = tasks (initial directory) ++ [task]
        ∧ Task.createdBy task = alice
        ∧ Task.assignedTo task = [bob; alice]
        ∧ notifications s' = notifications (initial directory) ++ new
        ∧ length new = length [bob; alice]
        ∧ Notification.userId <$> new = [bob; alice]
        ∧ NoDup (Notification._id <$> new)
        ∧ Forall (λ n,
            Notification.type n = Notification.task_assigned
            ∧ Notification.taskId n = Task._id task
            ∧ Notification.message n
              = "You have been assigned a new task: Quarterly report"
            ∧ Notification._id n
              ∉ Notification._id <$> notifications (initial directory)) new.
Proof.
  eexists _, _.
  split; [split; cbn; constructor|].
  split; [reflexivity|]. split; [reflexivity|]. split; [reflexivity|].
  apply (create_notifies_each_assignee demo 5 alice (titled "Quarterly report")
           [bob; alice] (initial directory)).
  - split; cbn; constructor.
  - reflexivity.
  - reflexivity.
Defined.

Lemma update_notifies_only_new_assignees_witness :
  Task.findById 0 (tasks shared) = Some shared_plan
  ∧ Task.createdBy shared_plan = alice
  ∧ ∃ r s' emitted,
      handle demo
        (PutTask 9 alice 0
           {| body_content := titled "Plan";
              body_assignedTo := Some [alice; bob; carol] |})
        shared = (r, s')
      ∧ status r = 200%nat
      ∧ notifications s' = notifications shared ++ emitted
      ∧ Forall (λ n, Notification.type n = Notification.task_assigned
                     ∧ Notification.taskId n = 0) emitted
      ∧ Notification.userId <$> emitted
        = filter (λ u, u ∉ Task.assignedTo shared_plan) [alice; bob; carol]
      ∧ (∀ u, length (filter (λ n, Notification.userId n = u) emitted)
              = if decide (u ∈ Task.assignedTo shared_plan) then 0%nat
                else occurrences u [alice; bob; carol])
      ∧ (NoDup [alice; bob; carol] →
         ∀ u, u ∈ [alice; bob; carol] → u ∉ Task.assignedTo shared_plan →
         length (filter (λ n, Notification.userId n = u) emitted) = 1%nat)
      ∧ (∀ u1 u2 u3,
           Task.assignedTo shared_plan = [u1; u2] →
           [alice; bob; carol] = [u1; u2; u3] →
           u3 ≠ u1 → u3 ≠ u2 →
           ∃ n, emitted = [n] ∧ Notification.userId n = u3).
Proof.
  split; [reflexivity|]. split; [reflexivity|].
  apply (update_notifies_only_new_assignees demo 9 alice 0
           (titled "Plan") [alice; bob; carol] shared shared_plan); reflexivity.
Defined.

Lemma stranger_is_forbidden_witness :
  Task.findById 0 (tasks planned) = Some plan
  ∧ Task.createdBy plan ≠ carol
  ∧ (carol ∉ Task.assignedTo plan)
  ∧ handle demo
      (PutTask 9 carol 0 {| body_content := titled "Mine"; body_assignedTo := None |})
      planned
    = ({| status := 403;
          body := JMessage "Not authorized to update this task" |}, planned)
  ∧ handle demo (PatchTaskStatus carol 0 (Some (JStr "done"))) planned
    = ({| status := 403;
          body := JMessage "Not authorized to update this task" |}, planned)
  ∧ handle demo (DeleteTask carol 0) planned
    = ({| status := 403;
          body := JMessage "Not authorized to delete this task" |}, planned).
Proof.
  assert (H1 : Task.findById 0 (tasks planned) = Some plan) by reflexivity.
  assert (H2 : Task.createdBy plan ≠ carol) by (vm_compute; discriminate).
  assert (H3 : carol ∉ Task.assignedTo plan).
  { intros H. apply list_elem_of_singleton in H. discriminate H. }
  split; [exact H1|]. split; [exact H2|]. split; [exact H3|].
  exact (stranger_is_forbidden demo 9 carol 0
           {| body_content := titled "Mine"; body_assignedTo := None |}
           (Some (JStr "done")) planned plan H1 H2 H3).
Defined.

Lemma delete_cascades_to_notifications_witness :
  wf planned
  ∧ Task.findById 0 (tasks planned) = Some plan
  ∧ Task.createdBy plan = alice
  ∧ ∃ s',
      handle demo (DeleteTask alice 0) planned
        = ({| status := 200; body := JMessage "Task deleted" |}, s')
      ∧ Task.findById 0 (tasks s') = None
      ∧ (∀ n, n ∈ notifications s' ↔
              n ∈ notifications planned ∧ Notification.taskId n ≠ 0)
      ∧ ∀ user, ∃ listed,
          handle demo (GetNotifications user) s'
            = ({| status := 200; body := JNotifications listed |}, s')
          ∧ ∀ pn, pn ∈ listed →
              Notification.userId (pn_doc pn) = user
              ∧ Notification.taskId (pn_doc pn) ≠ 0
              ∧ ∀ tid title, pn_taskId pn = Some (tid, title) → tid ≠ 0.
Proof.
  assert (Hwf : wf planned).
  { split; cbn; repeat constructor; try lia; by intros ?%elem_of_nil. }
  split; [exact Hwf|]. split; [reflexivity|]. split; [reflexivity|].
  apply (delete_cascades_to_notifications demo alice 0 planned plan);
    [exact Hwf|reflexivity|reflexivity].
Defined.

Lemma read_never_reverts_witness :
  let s := (handle demo (PatchNotificationRead bob 1) planned).2 in
  let s' :=
    (handle demo
       (PutTask 9 alice 0
          {| body_content := titled "Plan"; body_assignedTo := Some [bob; carol] |})
       s).2 in
  let n := Notification.set_read plan_notice in
  reachable demo s
  ∧ steps demo s s'
  ∧ n ∈ notifications s
  ∧ n ∈ notifications s'
  ∧ Notification.read n = true.
Proof.
  intros s s' n.
  assert (Hreach : reachable demo s).
  { apply reachable_step. exact planned_is_reachable. }
  assert (Hsteps : steps demo s s').
  { eapply steps_next. apply steps_refl. }
  assert (Hn : n ∈ notifications s) by (vm_compute; left).
  assert (Hn' : n ∈ notifications s') by (vm_compute; left).
  split; [exact Hreach|]. split; [exact Hsteps|].
  split; [exact Hn|]. split; [exact Hn'|].
  exact (read_never_reverts demo s s' n n Hreach Hsteps Hn Hn'
           eq_refl eq_refl).
Defined.

Lemma mark_read_idempotent_witness :
  Notification.findById 1 (notifications planned) = Some plan_notice
  ∧ Notification.userId plan_notice = bob
  ∧ ∃ s1,
      handle demo (PatchNotificationRead bob 1) planned
        = ({| status := 200;
              body := JNotification (Notification.set_read plan_notice) |}, s1)
      ∧ handle demo (PatchNotificationRead bob 1) s1
        = ({| status := 200;
              body := JNotification (Notification.set_read plan_notice) |}, s1)
      ∧ Notification._id (Notification.set_read plan_notice) = 1
      ∧ Notification.read (Notification.set_read plan_notice) = true.
Proof.
  split; [reflexivity|]. split; [reflexivity|].
  apply (mark_read_idempotent demo bob 1 planned plan_notice);
    reflexivity.
Defined.

Lemma update_keeps_unsupplied_fields_witness :
  let b :=
    {| body_content :=
         {| Task.title := None; Task.description := Some (JStr "by Friday");
            Task.status := None; Task.priority := None; Task.dueDate := None |};
       body_assignedTo := None |} in
  Task.findById 0 (tasks planned) = Some plan
  ∧ Task.createdBy plan = alice
  ∧ ∃ r s' t',
      handle demo (PutTask 9 alice 0 b) planned = (r, s')
      ∧ status r = 200%nat
      ∧ body r = JTask (Some (populate_task (users s') t'))
      ∧ Task.findById 0 (tasks s') = Some t'
      ∧ Task.title (Task.content t') = Some (JStr "Plan")
      ∧ Task.description (Task.content t') = Some (JStr "by Friday")
      ∧ Task.assignedTo t' = [bob].
Proof.
  intros b. split; [reflexivity|]. split; [reflexivity|].
  destruct (update_keeps_unsupplied_fields demo 9 alice 0 b
              planned plan eq_refl eq_refl)
    as (r & s' & t' & Hrun & Hstatus & Hbody & Hfind
        & [Htitle _] & [_ Hdescription] & _ & _ & _ & [Hassigned _] & _).
  exists r, s', t'. split; [exact Hrun|]. split; [exact Hstatus|].
  split; [exact Hbody|]. split; [exact Hfind|].
  split; [exact (Htitle eq_refl)|].
  split; [exact (Hdescription _ eq_refl)|].
  specialize (Hassigned eq_refl). by injection Hassigned.
Defined.

Lemma search_literal_query_witness :
  "bob" ≠ EmptyString
  ∧ literal "bob"
  ∧ ∃ keep,
      handle demo (GetUsersSearch (Some "bob")) (initial directory)
        = (ok_users (User.select_without "password"
                       <$> List.filter keep (users (initial directory))),
           initial directory)
      ∧ ∀ u, keep u = true ↔ spec_matches "bob" u.
Proof.
  assert (H1 : "bob" ≠ EmptyString) by discriminate.
  assert (H2 : literal "bob").
  { intros c Hc. cbn in Hc.
    repeat (apply elem_of_cons in Hc as [->|Hc]; [reflexivity|]).
    by apply elem_of_nil in Hc. }
  split; [exact H1|]. split; [exact H2|].
  exact (proj2 (proj2 (search_literal_query_is_substring_search
                         demo "bob" (initial directory))) H1 H2).
Defined.

Lemma search_never_shows_passwords_witness :
  User.select_without "password" <$> users (initial directory)
  = User.select_without "password" <$> users (initial directory')
  ∧ (handle demo (GetUsersSearch (Some "ali")) (initial directory)).1
    = (handle demo (GetUsersSearch (Some "ali")) (initial directory')).1.
Proof.
  assert (H : User.select_without "password" <$> users (initial directory)
              = User.select_without "password" <$> users (initial directory'))
    by reflexivity.
  split; [exact H|].
  exact (proj2 (search_never_shows_passwords demo (Some "ali"))
           (initial directory) (initial directory') H).
Defined.

(** * Further properties of the routes *)

(** ** Listings *)

Lemma insert_desc_perm {A} (key : A → Z) x (l : list A) :
  insert_desc key x l ≡ₚ x :: l.
Proof.
  induction l as [|y l IH]; cbn [insert_desc]; [done|].
  destruct (key y <=? key x)%Z; [done|].
  rewrite IH. apply Permutation_swap.
Qed.

Lemma sort_desc_perm {A} (key : A → Z) (l : list A) : sort_desc key l ≡ₚ l.
Proof.
  unfold sort_desc. induction l as [|x l IH]; [done|].
  cbn [foldr]. by rewrite insert_desc_perm, IH.
Qed.

Lemma insert_desc_sorted {A} (key : A → Z) x (l : list A) :
  newest_first key l → newest_first key (insert_desc key x l).
Proof.
  induction l as [|y l IH]; cbn [insert_desc newest_first].
  - by repeat constructor.
  - intros [Hy Hl]. destruct (key y <=? key x)%Z eqn:Hxy.
    + apply Z.leb_le in Hxy. cbn [newest_first]. split; [|done].
      constructor; [done|].
      eapply Forall_impl; [exact Hy|]. intros z Hz. cbn in Hz. lia.
    + apply Z.leb_gt in Hxy. cbn [newest_first]. split; [|by apply IH].
      rewrite insert_desc_perm. constructor; [lia|done].
Qed.

Lemma sort_desc_sorted {A} (key : A → Z) (l : list A) :
  newest_first key (sort_desc key l).
Proof.
  unfold sort_desc. induction l as [|x l IH]; cbn [foldr].
  - done.
  - by apply insert_desc_sorted.
Qed.

(** X1. GET /notifications answers 200 with exactly the caller's
    notifications, each with its task's title attached, ordered newest
    first, and writes nothing. *)
Theorem notifications_listed_newest_first cfg caller s :
  ∃ listed,
    handle cfg (GetNotifications caller) s
      = ({| status := 200; body := JNotifications listed |}, s)
    ∧ listed ≡ₚ populate_notification (tasks s) <$>
                  filter (λ n, Notification.userId n = caller) (notifications s)
    ∧ newest_first (Notification.createdAt ∘ pn_doc) listed.
Proof.
  eexists. split; [by run|].
  split; [apply sort_desc_perm|apply sort_desc_sorted].
Qed.

(** X2. GET /tasks/created lists exactly the tasks the caller created and
    GET /tasks/assigned exactly those whose [assignedTo] holds the caller,
    both newest first and without writing. *)
Theorem own_tasks_listed_newest_first cfg caller s :
  (∃ listed,
     handle cfg (GetTasksCreated caller) s
       = ({| status := 200; body := JTasks listed |}, s)
     ∧ listed ≡ₚ populate_task (users s) <$>
                   filter (λ t, Task.createdBy t = caller) (tasks s)
     ∧ newest_first (Task.createdAt ∘ pt_doc) listed)
  ∧ (∃ listed,
       handle cfg (GetTasksAssigned caller) s
         = ({| status := 200; body := JTasks listed |}, s)
       ∧ listed ≡ₚ populate_task (users s) <$>
                     filter (λ t, caller ∈ Task.assignedTo t) (tasks s)
       ∧ newest_first (Task.createdAt ∘ pt_doc) listed).
Proof.
  split; eexists; (split; [by run|]);
    (split; [apply sort_desc_perm|apply sort_desc_sorted]).
Qed.

(** X3. GET /tasks is for admins: a caller with another role gets 403, a
    caller with no user record gets 500, and an admin gets every task,
    newest first; the store is untouched in all three cases. *)
Theorem all_tasks_are_for_admins cfg caller s :
  (User.findById caller (users s) = None →
   handle cfg (GetTasks caller) s
     = ({| status := 500; body := JMessage "Server error" |}, s))
  ∧ (∀ user, User.findById caller (users s) = Some user →
       User.fields user !! "role" ≠ Some "admin" →
       handle cfg (GetTasks caller) s
         = ({| status := 403; body := JMessage "Access denied" |}, s))
  ∧ (∀ user, User.findById caller (users s) = Some user →
       User.fields user !! "role" = Some "admin" →
       ∃ listed,
         handle cfg (GetTasks caller) s
           = ({| status := 200; body := JTasks listed |}, s)
         ∧ listed ≡ₚ populate_task (users s) <$> tasks s
         ∧ newest_first (Task.createdAt ∘ pt_doc) listed).
Proof.
  split; [|split].
  - intros Hnone. run. by rewrite Hnone.
  - intros user Hsome Hrole. run. rewrite Hsome.
    by rewrite bool_decide_eq_true_2.
  - intros user Hsome Hrole. eexists. split.
    + run. rewrite Hsome.
      by rewrite bool_decide_eq_false_2 by (intros H; by apply H).
    + split; [apply sort_desc_perm|apply sort_desc_sorted].
Qed.

(** ** What replies reveal *)

Lemma select_only_hides key keys u :
  key ∉ keys → User.fields (User.select_only keys u) !! key = None.
Proof.
  intros Hkey. unfold User.select_only. cbn [User.fields].
  apply map_lookup_filter_None. right. intros x _ Hin. by apply Hkey.
Qed.

Lemma populate_task_hides us t u :
  u ∈ option_list (pt_createdBy (populate_task us t))
        ++ pt_assignedTo (populate_task us t) →
  User.fields u !! "password" = None.
Proof.
  assert (Hkey : "password" ∉ display).
  { unfold display. rewrite !elem_of_cons, elem_of_nil.
    intros [?|[?|[?|[]]]]; discriminate. }
  cbn [populate_task pt_createdBy pt_assignedTo].
  intros [Hu|Hu]%elem_of_app.
  - destruct (User.findById (Task.createdBy t) us) as [c|]; cbn in Hu.
    + apply list_elem_of_singleton in Hu as ->. by apply select_only_hides.
    + by apply elem_of_nil in Hu.
  - apply list_elem_of_omap in Hu as (id & _ & Hid).
    destruct (User.findById id us) as [a|]; [|done].
    injection Hid as <-. by apply select_only_hides.
Qed.

Lemma populated_tasks_hide us (ts : list Task.doc) u :
  u ∈ users_shown (JTasks (sort_desc (Task.createdAt ∘ pt_doc)
                             (populate_task us <$> ts))) →
  User.fields u !! "password" = None.
Proof.
  cbn [users_shown]. intros (pt & Hu & Hpt)%list_elem_of_bind.
  apply sort_desc_elem_of, list_elem_of_fmap in Hpt as (t & -> & _).
  by eapply populate_task_hides.
Qed.

Lemma populated_task_hides us (t : option Task.doc) u :
  u ∈ users_shown (JTask (populate_task us <$> t)) →
  User.fields u !! "password" = None.
Proof.
  destruct t as [t|]; cbn [users_shown fmap option_fmap option_map].
  - apply populate_task_hides.
  - by intros ?%elem_of_nil.
Qed.

(** X4. No reply of any route carries a user record with a [password]
    field: task replies show creators and assignees through the projection
    [fullName username email], the search removes the field, and the other
    replies carry no user records. *)
Theorem no_reply_shows_a_password cfg req s u :
  u ∈ users_shown (body (handle cfg req s).1) →
  User.fields u !! "password" = None.
Proof.
  destruct req; run.
  all: repeat (first [case_match | case_bool_decide]); simplify_eq/=.
  all: try (by intros ?%elem_of_nil).
  all: try apply populated_tasks_hide.
  all: try apply populated_task_hides.
  intros (u0 & -> & _)%list_elem_of_fmap. apply lookup_delete_eq.
Qed.

(** ** Marking notifications read: refusals and frame *)

(** X5. PATCH /notifications/:id/read, for an [:id] that is an ObjectId,
    answers 404 when no stored notification has that id and 403 when the
    notification belongs to another user, and writes nothing in either
    case.  (Text that is no ObjectId does not get as far as the lookup.) *)
Theorem mark_read_refuses cfg caller id s :
  (Notification.findById id (notifications s) = None →
   handle cfg (PatchNotificationRead caller id) s
     = ({| status := 404; body := JMessage "Notification not found" |}, s))
  ∧ (∀ n, Notification.findById id (notifications s) = Some n →
       Notification.userId n ≠ caller →
       handle cfg (PatchNotificationRead caller id) s
         = ({| status := 403; body := JMessage "Not authorized" |}, s)).
Proof.
  split.
  - intros Hnone. run. by rewrite Hnone.
  - intros n Hsome Hother. run. rewrite Hsome.
    by rewrite bool_decide_eq_true_2.
Qed.

Lemma save_set_read_unique id coll n :
  NoDup (Notification._id <$> coll) →
  Notification.findById id coll = Some n →
  Notification.save (Notification.set_read n) coll
  = (λ m, if Notification._id m =? id then Notification.set_read m else m)
      <$> coll.
Proof.
  unfold Notification.findById.
  induction coll as [|d coll IH]; [done|].
  cbn [fmap list_fmap]. intros [Hd Hnodup]%NoDup_cons.
  cbn [List.find Notification.save Notification.set_read Notification._id].
  destruct (Notification._id d =? id) eqn:Hid.
  - intros [= ->]. apply N.eqb_eq in Hid. subst id. rewrite N.eqb_refl.
    f_equal. symmetry. etrans; [|apply list_fmap_id].
    apply list_fmap_ext. intros i m Hm. cbn.
    destruct (Notification._id m =? Notification._id n) eqn:Hm'; [|done].
    apply N.eqb_eq in Hm'. destruct Hd. rewrite <- Hm'.
    apply list_elem_of_fmap. exists m. split; [done|].
    by eapply list_elem_of_lookup_2.
  - intros Hfind.
    pose proof Hfind as Hn. apply find_some in Hn as [_ Hn].
    apply N.eqb_eq in Hn. rewrite Hn, Hid. f_equal.
    specialize (IH Hnodup Hfind). cbn in IH. by rewrite IH.
Qed.

(** X6. A successful PATCH /notifications/:id/read sets [read] on the one
    notification with that id and changes nothing else: every other
    notification, the tasks, the users and the id counter stay as they
    were. *)
Theorem mark_read_touches_one cfg caller id s n :
  wf s →
  Notification.findById id (notifications s) = Some n →
  Notification.userId n = caller →
  (handle cfg (PatchNotificationRead caller id) s).2
  = {| users := users s; tasks := tasks s;
       notifications :=
         (λ m, if Notification._id m =? id then Notification.set_read m else m)
           <$> notifications s;
       next_oid := next_oid s |}.
Proof.
  intros [_ _ _ Hnodup] Hfind Howner. run. rewrite Hfind.
  rewrite bool_decide_eq_false_2 by (intros H; by apply H).
  cbn [snd]. unfold with_notifications.
  by rewrite (save_set_read_unique id).
Qed.

Lemma set_read_read n : Notification.read n = true → Notification.set_read n = n.
Proof. destruct n as [? ? ? ? ? r ?]. cbn. by intros ->. Qed.

Lemma mark_all_read_store cfg caller s :
  handle cfg (PostMarkAllRead caller) s
  = ({| status := 200; body := JMessage "All notifications marked as read" |},
     {| users := users s; tasks := tasks s;
        notifications :=
          (λ n, if Notification.userId n =? caller
                then Notification.set_read n else n) <$> notifications s;
        next_oid := next_oid s |}).
Proof.
  run. unfold with_notifications, Notification.updateMany. do 2 f_equal.
  apply list_fmap_ext. intros i n _.
  destruct (Notification.userId n =? caller); [|done].
  destruct (Notification.read n) eqn:Hread; cbn; [|done].
  by rewrite set_read_read.
Qed.

(** X7. POST /notifications/mark-all-read sets [read] on every notification
    of the caller and leaves those of all other users, the tasks and the
    users exactly as they were; a second call changes nothing more. *)
Theorem mark_all_read_marks_own_only cfg caller s :
  let reply :=
    {| status := 200; body := JMessage "All notifications marked as read" |} in
  let s' := (handle cfg (PostMarkAllRead caller) s).2 in
  (handle cfg (PostMarkAllRead caller) s).1 = reply
  ∧ users s' = users s ∧ tasks s' = tasks s
  ∧ notifications s'
    = (λ n, if Notification.userId n =? caller
            then Notification.set_read n else n) <$> notifications s
  ∧ (∀ n, n ∈ notifications s' →
          Notification.userId n = caller → Notification.read n = true)
  ∧ (∀ n, n ∈ notifications s → Notification.userId n ≠ caller →
          n ∈ notifications s')
  ∧ handle cfg (PostMarkAllRead caller) s' = (reply, s').
Proof.
  intros reply s'. subst s'. rewrite mark_all_read_store. cbn [fst snd].
  split; [done|]. split; [done|]. split; [done|]. split; [done|].
  cbn [notifications]. split; [|split].
  - intros n (m & -> & _)%list_elem_of_fmap.
    destruct (Notification.userId m =? caller) eqn:Hm; [done|].
    apply N.eqb_neq in Hm. cbn. congruence.
  - intros n Hn Hother. apply list_elem_of_fmap. exists n. split; [|done].
    apply N.eqb_neq in Hother. by rewrite Hother.
  - rewrite mark_all_read_store. cbn [users tasks notifications next_oid].
    do 2 f_equal. rewrite <- list_fmap_compose.
    apply list_fmap_ext. intros i n _. cbn.
    destruct (Notification.userId n =? caller) eqn:Hn; cbn; by rewrite Hn.
Qed.

(** ** Task routes: refusals, rights and frame *)

(** X8. PUT /tasks/:id, PATCH /tasks/:id/status and DELETE /tasks/:id answer
    404 for an [:id] that is an ObjectId no stored task has, whoever calls,
    and write nothing.  (Text that is no ObjectId does not get as far as the
    lookup.) *)
Theorem missing_task_is_not_found cfg now caller id b status s :
  Task.findById id (tasks s) = None →
  handle cfg (PutTask now caller id b) s
    = ({| status := 404; body := JMessage "Task not found" |}, s)
  ∧ handle cfg (PatchTaskStatus caller id status) s
    = ({| status := 404; body := JMessage "Task not found" |}, s)
  ∧ handle cfg (DeleteTask caller id) s
    = ({| status := 404; body := JMessage "Task not found" |}, s).
Proof. intros Hnone. repeat split; run; by rewrite Hnone. Qed.

(** X9. The two rights are separate.  Editing and deleting go by
    [createdBy] alone: an assignee who is not the creator gets 403 from PUT
    and DELETE.  The status goes by [assignedTo] alone: the creator gets 403
    from PATCH status unless listed among the assignees. *)
Theorem rights_are_separate cfg now caller id b status s t :
  Task.findById id (tasks s) = Some t →
  (Task.createdBy t ≠ caller →
   handle cfg (PutTask now caller id b) s
     = ({| status := 403;
           body := JMessage "Not authorized to update this task" |}, s)
   ∧ handle cfg (DeleteTask caller id) s
     = ({| status := 403;
           body := JMessage "Not authorized to delete this task" |}, s))
  ∧ ((caller ∉ Task.assignedTo t) →
     handle cfg (PatchTaskStatus caller id status) s
       = ({| status := 403;
             body := JMessage "Not authorized to update this task" |}, s)).
Proof.
  intros Hfind. split.
  - intros Hcreator. split; run; rewrite Hfind; by rewrite bool_decide_eq_true_2.
  - intros Hassignee. run. rewrite Hfind. by rewrite bool_decide_eq_true_2.
Qed.

Lemma findByIdAndUpdate_other id id' u coll :
  id' ≠ id →
  Task.findById id' (Task.findByIdAndUpdate id u coll).2 = Task.findById id' coll.
Proof.
  intros Hne. unfold Task.findById.
  induction coll as [|t coll IH]; [done|].
  cbn [Task.findByIdAndUpdate List.find].
  destruct (Task._id t =? id) eqn:Hid.
  - apply N.eqb_eq in Hid. cbn [snd List.find Task.apply_set Task._id].
    assert ((Task._id t =? id') = false) as -> by (apply N.eqb_neq; congruence).
    done.
  - destruct (Task.findByIdAndUpdate id u coll) as [r coll'].
    cbn [snd List.find] in *. by rewrite IH.
Qed.

Lemma findByIdAndUpdate_length id u coll :
  length (Task.findByIdAndUpdate id u coll).2 = length coll.
Proof.
  rewrite <- (length_fmap Task._id), findByIdAndUpdate_ids.
  apply length_fmap.
Qed.

Lemma patch_task_status_updated cfg caller id sent s t :
  Task.findById id (tasks s) = Some t →
  caller ∈ Task.assignedTo t →
  let updates :=
    {| Task.u_content :=
         {| Task.title := None; Task.description := None;
            Task.status := sent; Task.priority := None;
            Task.dueDate := None |};
       Task.u_assignedTo := None |} in
  handle cfg (PatchTaskStatus caller id sent) s
  = ({| status := 200;
        body := JTask (Some (populate_task (users s) (Task.apply_set updates t))) |},
     {| users := users s;
        tasks := (Task.findByIdAndUpdate id updates (tasks s)).2;
        notifications := notifications s;
        next_oid := next_oid s |}).
Proof.
  intros Hfind Hassignee updates. run. rewrite Hfind.
  rewrite bool_decide_eq_false_2 by (intros H; by apply H).
  fold updates.
  destruct (findByIdAndUpdate_found id updates _ _ Hfind) as [Hupd _].
  destruct (Task.findByIdAndUpdate id updates (tasks s)) as [r ts].
  cbn in Hupd. by subst r.
Qed.

(** X10. PATCH /tasks/:id/status by an assignee answers 200 and stores the
    sent status on that task; its other fields, its creator and assignees,
    every other task, and all notifications stay as they were (no
    notification is written for a status change).  A request without a
    status leaves the stored one. *)
Theorem status_update_changes_status_only cfg caller id sent s t :
  Task.findById id (tasks s) = Some t →
  caller ∈ Task.assignedTo t →
  ∃ r s' t',
    handle cfg (PatchTaskStatus caller id sent) s = (r, s')
    ∧ status r = 200%nat
    ∧ body r = JTask (Some (populate_task (users s') t'))
    ∧ Task.findById id (tasks s') = Some t'
    ∧ kept_or_replaced sent
        (Task.status (Task.content t)) (Task.status (Task.content t'))
    ∧ Task.title (Task.content t') = Task.title (Task.content t)
    ∧ Task.description (Task.content t') = Task.description (Task.content t)
    ∧ Task.priority (Task.content t') = Task.priority (Task.content t)
    ∧ Task.dueDate (Task.content t') = Task.dueDate (Task.content t)
    ∧ Task.createdBy t' = Task.createdBy t
    ∧ Task.assignedTo t' = Task.assignedTo t
    ∧ Task.createdAt t' = Task.createdAt t
    ∧ (∀ id', id' ≠ id →
         Task.findById id' (tasks s') = Task.findById id' (tasks s))
    ∧ notifications s' = notifications s
    ∧ users s' = users s.
Proof.
  intros Hfind Hassignee.
  pose proof (patch_task_status_updated cfg caller id sent s t Hfind Hassignee)
    as Hrun. cbn zeta in Hrun.
  set (updates := {| Task.u_content := _; Task.u_assignedTo := None |}) in *.
  destruct (findByIdAndUpdate_found id updates _ _ Hfind) as [_ Hstored].
  eexists _, _, (Task.apply_set updates t). split; [exact Hrun|].
  cbn [status body users tasks notifications].
  split; [done|]. split; [done|]. split; [exact Hstored|].
  split.
  { cbn. split; [by intros ->|by intros v ->]. }
  do 7 (split; [done|]).
  split; [|done]. intros id' Hne. by apply findByIdAndUpdate_other.
Qed.

(** X11. A successful PUT /tasks/:id leaves every other task, the number of
    tasks and the users as they were, keeps every notification that
    existed, and inserts none when the body has no [assignedTo]. *)
Theorem update_leaves_the_rest cfg now caller id b s t :
  Task.findById id (tasks s) = Some t →
  Task.createdBy t = caller →
  let s' := (handle cfg (PutTask now caller id b) s).2 in
  users s' = users s
  ∧ length (tasks s') = length (tasks s)
  ∧ (∀ id', id' ≠ id →
       Task.findById id' (tasks s') = Task.findById id' (tasks s))
  ∧ (∀ n, n ∈ notifications s → n ∈ notifications s')
  ∧ (body_assignedTo b = None → notifications s' = notifications s).
Proof.
  intros Hfind Hcreator s'. subst s'.
  rewrite (put_task_updated cfg now caller id b s t Hfind Hcreator).
  cbn [snd users tasks notifications].
  split; [done|]. split; [apply findByIdAndUpdate_length|].
  split; [intros id' Hne; by apply findByIdAndUpdate_other|].
  split.
  - intros n Hn. apply elem_of_app. by left.
  - intros ->. cbn. by rewrite app_nil_r.
Qed.

Lemma deleteOne_other id id' coll :
  id' ≠ id →
  Task.findById id' (Task.deleteOne id coll) = Task.findById id' coll.
Proof.
  intros Hne. unfold Task.findById.
  induction coll as [|t coll IH]; [done|].
  cbn [Task.deleteOne List.find].
  destruct (Task._id t =? id) eqn:Hid.
  - apply N.eqb_eq in Hid.
    assert ((Task._id t =? id') = false) as -> by (apply N.eqb_neq; congruence).
    done.
  - cbn [List.find]. by rewrite IH.
Qed.

Lemma deleteOne_length id coll t :
  Task.findById id coll = Some t →
  S (length (Task.deleteOne id coll)) = length coll.
Proof.
  unfold Task.findById.
  induction coll as [|t0 coll IH]; [done|].
  cbn [Task.deleteOne List.find].
  destruct (Task._id t0 =? id); [done|].
  intros Hfind. cbn [length]. by rewrite IH.
Qed.

(** X12. A successful DELETE /tasks/:id removes one task: every task with
    another id is still found as before, the number of tasks drops by one,
    and the users and the id counter are untouched. *)
Theorem delete_removes_one_task cfg caller id s t :
  Task.findById id (tasks s) = Some t →
  Task.createdBy t = caller →
  let s' := (handle cfg (DeleteTask caller id) s).2 in
  S (length (tasks s')) = length (tasks s)
  ∧ (∀ id', id' ≠ id →
       Task.findById id' (tasks s') = Task.findById id' (tasks s))
  ∧ users s' = users s
  ∧ next_oid s' = next_oid s.
Proof.
  intros Hfind Hcreator s'. subst s'.
  rewrite (delete_task_deleted cfg caller id s t Hfind Hcreator).
  cbn [snd users tasks next_oid].
  split; [by eapply deleteOne_length|].
  split; [intros id' Hne; by apply deleteOne_other|done].
Qed.

(** ** Invariants of reachable stores *)

Lemma deleteOne_keeps id (coll : list Task.doc) i :
  i ∈ Task._id <$> coll → i ≠ id → i ∈ Task._id <$> Task.deleteOne id coll.
Proof.
  induction coll as [|t coll IH]; [done|].
  cbn [Task.deleteOne fmap list_fmap].
  destruct (Task._id t =? id) eqn:Hid.
  - apply N.eqb_eq in Hid. intros [->|Hi]%elem_of_cons Hne; [done|done].
  - intros [->|Hi]%elem_of_cons Hne; [by left|]. right. by apply IH.
Qed.

Lemma handle_keeps_notifications_sound cfg req s r s' :
  handle cfg req s = (r, s') →
  refers_to_tasks s ∧ only_assignments s →
  refers_to_tasks s' ∧ only_assignments s'.
Proof.
  unfold refers_to_tasks, only_assignments.
  destruct req; run; intros H [Hrefs Htype].
  all: repeat (first [case_match | case_bool_decide]); simplify_eq/=.
  all: try done.
  all: repeat match goal with
         | H : Task.findByIdAndUpdate ?i ?u ?ts = (_, ?l) |- _ =>
             replace (Task._id <$> l) with (Task._id <$> ts)
               by (by rewrite <- (findByIdAndUpdate_ids i u ts), H);
             clear H
         end.
  all: try done.
  - (* mark read *)
    match goal with
    | H : Notification.findById _ _ = Some _ |- _ =>
        pose proof (findById_notification_elem _ _ _ H) as Hd
    end.
    split; intros n [->|Hn]%elem_of_save; cbn; auto.
  - (* mark all read *)
    unfold Notification.updateMany.
    split; intros n (m & -> & Hm)%list_elem_of_fmap;
      destruct (_ && _); cbn; auto.
  - (* create *)
    split; intros n [Hn|Hn]%elem_of_app.
    + rewrite fmap_app. apply elem_of_app. left. auto.
    + apply elem_of_build_all in Hn as (d & k & Hd & -> & _).
      apply list_elem_of_fmap in Hd as (u & -> & _).
      rewrite fmap_app. apply elem_of_app. right. cbn. by left.
    + auto.
    + apply elem_of_build_all in Hn as (d & k & Hd & -> & _).
      by apply list_elem_of_fmap in Hd as (u & -> & _).
  - (* create, list known *)
    split; [|done]. intros n Hn.
    rewrite fmap_app. apply elem_of_app. left. auto.
  - (* create, no list *)
    split; [|done]. intros n Hn.
    rewrite fmap_app. apply elem_of_app. left. auto.
  - (* update with new assignees *)
    split; intros n [Hn|Hn]%elem_of_app; auto.
    + apply elem_of_build_all in Hn as (d0 & k & Hd & -> & _).
      apply list_elem_of_fmap in Hd as (u & -> & _). cbn.
      apply list_elem_of_fmap. exists d. split; [done|].
      by eapply findById_task_elem.
    + apply elem_of_build_all in Hn as (d0 & k & Hd & -> & _).
      by apply list_elem_of_fmap in Hd as (u & -> & _).
  - (* delete *)
    unfold Notification.deleteMany.
    split; intros n [Hsel Hn]%list_elem_of_filter; [|auto].
    apply deleteOne_keeps; [auto|].
    intros Heq. apply Hsel. rewrite Heq, N.eqb_refl. done.
Qed.

Lemma reachable_notifications_sound cfg s :
  reachable cfg s → refers_to_tasks s ∧ only_assignments s.
Proof.
  induction 1 as [us|s req _ IH].
  - split; intros n Hn; by apply elem_of_nil in Hn.
  - destruct (handle cfg req s) as [r s'] eqn:Hrun.
    by eapply handle_keeps_notifications_sound.
Qed.

Lemma find_task_of_id i (coll : list Task.doc) :
  i ∈ Task._id <$> coll → ∃ t, Task.findById i coll = Some t.
Proof.
  unfold Task.findById. induction coll as [|t coll IH]; cbn [fmap list_fmap].
  - by intros ?%elem_of_nil.
  - cbn [List.find]. destruct (Task._id t =? i) eqn:Hid; [by eexists|].
    apply N.eqb_neq in Hid. intros [->|Hi]%elem_of_cons; [done|by apply IH].
Qed.

Lemma find_task_unique (coll : list Task.doc) t :
  NoDup (Task._id <$> coll) → t ∈ coll →
  Task.findById (Task._id t) coll = Some t.
Proof.
  unfold Task.findById. induction coll as [|t0 coll IH]; cbn [fmap list_fmap].
  - intros _ Ht. by apply elem_of_nil in Ht.
  - intros [Ht0 Hnodup]%NoDup_cons Ht. cbn [List.find].
    destruct (Task._id t0 =? Task._id t) eqn:Hid.
    + apply N.eqb_eq in Hid. apply elem_of_cons in Ht as [->|Ht]; [done|].
      destruct Ht0. rewrite Hid. apply list_elem_of_fmap. by exists t.
    + apply N.eqb_neq in Hid.
      apply elem_of_cons in Ht as [->|Ht]; [done|by apply IH].
Qed.

Lemma find_notification_unique (coll : list Notification.doc) n :
  NoDup (Notification._id <$> coll) → n ∈ coll →
  Notification.findById (Notification._id n) coll = Some n.
Proof.
  unfold Notification.findById.
  induction coll as [|n0 coll IH]; cbn [fmap list_fmap].
  - intros _ Hn. by apply elem_of_nil in Hn.
  - intros [Hn0 Hnodup]%NoDup_cons Hn. cbn [List.find].
    destruct (Notification._id n0 =? Notification._id n) eqn:Hid.
    + apply N.eqb_eq in Hid. apply elem_of_cons in Hn as [->|Hn]; [done|].
      destruct Hn0. rewrite Hid. apply list_elem_of_fmap. by exists n.
    + apply N.eqb_neq in Hid.
      apply elem_of_cons in Hn as [->|Hn]; [done|by apply IH].
Qed.

(** X13. In every store the routes can reach, [findById] of a stored
    document's [_id] returns that document, for tasks and for notifications:
    no two documents of a collection share an id. *)
Theorem stored_documents_are_found_by_id cfg s :
  reachable cfg s →
  (∀ t, t ∈ tasks s → Task.findById (Task._id t) (tasks s) = Some t)
  ∧ (∀ n, n ∈ notifications s →
       Notification.findById (Notification._id n) (notifications s) = Some n).
Proof.
  intros [_ _ Htasks Hnotifications]%reachable_wf. split.
  - intros t Ht. by apply find_task_unique.
  - intros n Hn. by apply find_notification_unique.
Qed.

(** X14. In every store the routes can reach, each notification refers to a
    task that is stored: the delete route removes a task's notifications
    with it, and no other route removes a task. *)
Theorem notifications_refer_to_stored_tasks cfg s n :
  reachable cfg s → n ∈ notifications s →
  ∃ t, Task.findById (Notification.taskId n) (tasks s) = Some t ∧ t ∈ tasks s.
Proof.
  intros [Hrefs _]%reachable_notifications_sound Hn.
  destruct (find_task_of_id _ _ (Hrefs n Hn)) as [t Ht].
  exists t. split; [done|]. by eapply findById_task_elem.
Qed.

(** X15. No route writes a [task_updated] notification: in every store the
    routes can reach, all notifications have type [task_assigned]. *)
Theorem task_updated_is_never_written cfg s n :
  reachable cfg s → n ∈ notifications s →
  Notification.type n = Notification.task_assigned.
Proof. intros [_ Htype]%reachable_notifications_sound Hn. by apply Htype. Qed.

(** X16. No route writes the user collection: along any sequence of
    requests the users stay the same. *)
Theorem users_never_change cfg s s' :
  steps cfg s s' → users s' = users s.
Proof.
  induction 1 as [s|s req s' _ IH]; [done|].
  destruct (handle cfg req s) as [r s1] eqn:Hrun. cbn [snd] in IH.
  apply handle_moves in Hrun as (Husers & _). congruence.
Qed.

(** ** How the routes compose *)

Lemma deleteOne_app_fresh id coll t :
  Forall (λ t', Task._id t' ≠ id) coll →
  Task._id t = id →
  Task.deleteOne id (coll ++ [t]) = coll.
Proof.
  intros Hfresh <-.
  induction Hfresh as [|t' coll Hne _ IH]; cbn [Task.deleteOne app].
  - by rewrite N.eqb_refl.
  - apply N.eqb_neq in Hne. by rewrite Hne, IH.
Qed.

Lemma deleteMany_keeps_all sel (coll : list Notification.doc) :
  Forall (λ n, sel n = false) coll → Notification.deleteMany sel coll = coll.
Proof.
  unfold Notification.deleteMany. induction 1 as [|n coll Hn _ IH]; [done|].
  rewrite filter_cons_True by (rewrite Hn; intros []). by rewrite IH.
Qed.

Lemma deleteMany_drops_all sel (coll : list Notification.doc) :
  Forall (λ n, sel n = true) coll → Notification.deleteMany sel coll = [].
Proof.
  unfold Notification.deleteMany. induction 1 as [|n coll Hn _ IH]; [done|].
  rewrite filter_cons_False by (rewrite Hn; intros H; by apply H).
  done.
Qed.

Lemma deleteMany_app sel (l1 l2 : list Notification.doc) :
  Notification.deleteMany sel (l1 ++ l2)
  = Notification.deleteMany sel l1 ++ Notification.deleteMany sel l2.
Proof. unfold Notification.deleteMany. apply filter_app. Qed.

Lemma create_reply_201 cfg now caller b s r s1 us :
  body_assignedTo b = Some us →
  Forall (λ t, Task._id t < next_oid s) (tasks s) →
  handle cfg (PostTask now caller b) s = (r, s1) →
  status r = 201%nat →
  ∃ content',
    let task :=
      {| Task._id := next_oid s; Task.content := content';
         Task.createdBy := caller; Task.assignedTo := us;
         Task.createdAt := now |} in
    r = {| status := 201; body := JTask (Some (populate_task (users s) task)) |}
    ∧ s1 = {| users := users s;
              tasks := tasks s ++ [task];
              notifications := notifications s ++
                Notification.build_all now (N.succ (next_oid s))
                  (task_assigned_to_new (next_oid s)
                     (Task.title (body_content b)) <$> us);
              next_oid := N.succ (next_oid s) + N.of_nat (length us) |}.
Proof.
  intros Hus Hids Hrun Hcreated.
  destruct (Task.cast (task_schema cfg) (body_content b)) as [content'|] eqn:Hcast.
  - rewrite (post_task_created cfg now caller b s content' us) in Hrun by done.
    injection Hrun as <- <-. by exists content'.
  - rewrite post_task_invalid in Hrun by done. by injection Hrun as <- <-.
Qed.

(** X17. Creating a task and then deleting it, both by the same caller,
    brings the tasks and the notifications back to what they were: the
    delete removes the new task and exactly the notifications the create
    wrote. *)
Theorem create_then_delete_restores cfg now caller content us s r s1 :
  reachable cfg s →
  handle cfg (PostTask now caller
                {| body_content := content; body_assignedTo := Some us |}) s
    = (r, s1) →
  status r = 201%nat →
  ∃ task,
    body r = JTask (Some (populate_task (users s1) task))
    ∧ (handle cfg (DeleteTask caller (Task._id task)) s1).1
      = {| status := 200; body := JMessage "Task deleted" |}
    ∧ tasks (handle cfg (DeleteTask caller (Task._id task)) s1).2 = tasks s
    ∧ notifications (handle cfg (DeleteTask caller (Task._id task)) s1).2
      = notifications s
    ∧ users (handle cfg (DeleteTask caller (Task._id task)) s1).2 = users s.
Proof.
  intros Hreach Hrun Hcreated.
  pose proof (reachable_wf _ _ Hreach) as [Hids _ _ _].
  pose proof (reachable_notifications_sound _ _ Hreach) as [Hrefs _].
  destruct (create_reply_201 cfg now caller
              {| body_content := content; body_assignedTo := Some us |}
              s r s1 us eq_refl Hids Hrun Hcreated)
    as (content' & -> & ->). cbn zeta.
  eexists. split; [done|]. cbn [Task._id].
  assert (Hfresh : Forall (λ t', Task._id t' ≠ next_oid s) (tasks s)).
  { eapply Forall_impl; [exact Hids|]. intros t' Ht'. cbn in Ht'. lia. }
  erewrite delete_task_deleted;
    [|cbn [tasks]; by apply find_task_app_fresh|done].
  cbn [fst snd users tasks notifications].
  split; [done|]. split; [by apply deleteOne_app_fresh|]. split; [|done].
  rewrite deleteMany_app.
  rewrite deleteMany_keeps_all, deleteMany_drops_all; [by rewrite app_nil_r| |].
  - apply Forall_forall. intros n Hn.
    apply elem_of_build_all in Hn as (d & k & Hd & -> & _).
    apply list_elem_of_fmap in Hd as (u & -> & _). cbn. apply N.eqb_refl.
  - apply Forall_forall. intros n Hn. apply N.eqb_neq.
    specialize (Hrefs n Hn). apply list_elem_of_fmap in Hrefs as (t & Ht & Hin).
    rewrite Forall_forall in Hids. apply Hids in Hin. lia.
Qed.

Lemma build_all_has now next ds d :
  d ∈ ds → ∃ k, Notification.build now k d ∈ Notification.build_all now next ds.
Proof.
  revert next. induction ds as [|d0 ds IH]; intros next Hd.
  - by apply elem_of_nil in Hd.
  - cbn [Notification.build_all]. apply elem_of_cons in Hd as [->|Hd].
    + exists next. by left.
    + destruct (IH (N.succ next) Hd) as [k Hk]. exists k. by right.
Qed.

(** X18. After a successful create, GET /notifications of each listed user
    shows an unread notification for the new task, with the task's stored
    title attached. *)
Theorem assignee_sees_the_assignment cfg now caller content us s r s1 u :
  wf s →
  handle cfg (PostTask now caller
                {| body_content := content; body_assignedTo := Some us |}) s
    = (r, s1) →
  status r = 201%nat →
  u ∈ us →
  ∃ task listed pn,
    body r = JTask (Some (populate_task (users s1) task))
    ∧ handle cfg (GetNotifications u) s1
      = ({| status := 200; body := JNotifications listed |}, s1)
    ∧ pn ∈ listed
    ∧ Notification.userId (pn_doc pn) = u
    ∧ Notification.taskId (pn_doc pn) = Task._id task
    ∧ Notification.read (pn_doc pn) = false
    ∧ pn_taskId pn = Some (Task._id task, Task.title (Task.content task)).
Proof.
  intros [Hids _ _ _] Hrun Hcreated Hu.
  destruct (create_reply_201 cfg now caller
              {| body_content := content; body_assignedTo := Some us |}
              s r s1 us eq_refl Hids Hrun Hcreated)
    as (content' & -> & ->). cbn zeta.
  destruct (build_all_has now (N.succ (next_oid s))
              (task_assigned_to_new (next_oid s) (Task.title content) <$> us)
              (task_assigned_to_new (next_oid s) (Task.title content) u))
    as [k Hk].
  { apply list_elem_of_fmap. by exists u. }
  eexists _, _, (populate_notification _ _).
  split; [done|]. split; [by run|].
  split.
  { apply sort_desc_elem_of, list_elem_of_fmap. eexists. split; [done|].
    apply list_elem_of_filter. split; [|apply elem_of_app; right; exact Hk].
    done. }
  cbn [populate_notification pn_doc pn_taskId Notification.build
         Notification.userId Notification.taskId Notification.read
         task_assigned_to_new Notification.d_userId Notification.d_taskId
         tasks body_content Task._id].
  split; [done|]. split; [done|]. split; [done|].
  rewrite find_task_app_fresh; [done| |done].
  eapply Forall_impl; [exact Hids|]. intros t' Ht'. cbn in Ht'. lia.
Qed.

(** X19. After POST /notifications/mark-all-read, GET /notifications of the
    same caller lists as many notifications as before, all of them read. *)
Theorem after_mark_all_read_nothing_is_unread cfg caller s :
  ∃ before after,
    handle cfg (GetNotifications caller) s
      = ({| status := 200; body := JNotifications before |}, s)
    ∧ handle cfg (GetNotifications caller)
        (handle cfg (PostMarkAllRead caller) s).2
      = ({| status := 200; body := JNotifications after |},
         (handle cfg (PostMarkAllRead caller) s).2)
    ∧ length after = length before
    ∧ ∀ pn, pn ∈ after → Notification.read (pn_doc pn) = true.
Proof.
  rewrite mark_all_read_store. cbn [snd].
  eexists _, _. split; [by run|]. split; [by run|].
  cbn [notifications tasks]. split.
  - rewrite !sort_desc_perm, !length_fmap.
    induction (notifications s) as [|n ns IH]; [done|].
    cbn [fmap list_fmap]. rewrite !filter_cons.
    destruct (Notification.userId n =? caller) eqn:Hn.
    + apply N.eqb_eq in Hn. cbn [Notification.set_read Notification.userId].
      rewrite !decide_True by done. cbn [length]. by rewrite IH.
    + apply N.eqb_neq in Hn. by rewrite !decide_False by done.
  - intros pn Hpn. apply sort_desc_elem_of in Hpn.
    apply list_elem_of_fmap in Hpn as (n & -> & Hn).
    apply list_elem_of_filter in Hn as [Hown Hn].
    apply list_elem_of_fmap in Hn as (m & -> & _). cbn [populate_notification pn_doc].
    destruct (Notification.userId m =? caller) eqn:Hm; [done|].
    apply N.eqb_neq in Hm. done.
Qed.

(** X20. Once a task has been deleted, its id is gone for good: a second
    DELETE, a PUT and a PATCH status on it all answer 404. *)
Theorem deleted_task_is_not_found cfg now caller caller' id b sent s t :
  wf s →
  Task.findById id (tasks s) = Some t →
  Task.createdBy t = caller →
  let s' := (handle cfg (DeleteTask caller id) s).2 in
  handle cfg (DeleteTask caller' id) s'
    = ({| status := 404; body := JMessage "Task not found" |}, s')
  ∧ handle cfg (PutTask now caller' id b) s'
    = ({| status := 404; body := JMessage "Task not found" |}, s')
  ∧ handle cfg (PatchTaskStatus caller' id sent) s'
    = ({| status := 404; body := JMessage "Task not found" |}, s').
Proof.
  intros [_ _ Hnodup _] Hfind Hcreator s'. subst s'.
  rewrite (delete_task_deleted cfg caller id s t Hfind Hcreator). cbn [snd].
  pose proof (deleteOne_gone id (tasks s) Hnodup) as Hgone.
  repeat split; run; cbn [tasks]; by rewrite Hgone.
Qed.

(** ** More on the search *)

Lemma matches_anywhere_literal_lower q q' s :
  lower_string q = lower_string q' →
  Regex.matches_anywhere (Regex.Lit <$> list_ascii_of_string q) s
  = Regex.matches_anywhere (Regex.Lit <$> list_ascii_of_string q') s.
Proof.
  intros Hq. apply Bool.eq_iff_eq_true.
  rewrite !matches_anywhere_literal. unfold contains_ci. by rewrite Hq.
Qed.

Lemma or_regex_i_ext test test' fs u :
  (∀ v, test v = test' v) →
  User.or_regex_i test fs u = User.or_regex_i test' fs u.
Proof.
  intros Hext. unfold User.or_regex_i, User.regex_i.
  induction fs as [|f fs IH]; [done|].
  cbn [existsb]. rewrite IH. by destruct (User.fields u !! f); rewrite ?Hext.
Qed.

(** X21. The case of the query does not matter: two queries without
    metacharacters that differ only in the case of their letters get the
    same reply. *)
Theorem search_ignores_the_case_of_the_query cfg q q' s :
  literal q → literal q' →
  lower_string q = lower_string q' →
  handle cfg (GetUsersSearch (Some q)) s = handle cfg (GetUsersSearch (Some q')) s.
Proof.
  intros Hq Hq' Hlower.
  destruct q as [|c q], q' as [|c' q']; [done|done|done|].
  rewrite (get_users_search_compiled cfg c q _ s (compile_literal _ Hq)).
  rewrite (get_users_search_compiled cfg c' q' _ s (compile_literal _ Hq')).
  unfold ok_users. do 4 f_equal. apply filter_ext. intros u. apply or_regex_i_ext.
  intros v. by apply matches_anywhere_literal_lower.
Qed.

Lemma compile_trailing_backslash q :
  literal q → Regex.compile (q +:+ "\") = Regex.Invalid.
Proof.
  unfold literal. induction q as [|c q IH]; intros Hq; [done|].
  rewrite append_cons. cbn [Regex.compile].
  assert (Hc : Regex.is_meta c = false) by (apply Hq; left).
  assert (Hbackslash : Ascii.eqb c "\" = false).
  { apply Ascii.eqb_neq. by intros ->. }
  assert (Hdot : Ascii.eqb c "." = false).
  { apply Ascii.eqb_neq. by intros ->. }
  rewrite Hbackslash, Hdot, Hc, IH; [done|].
  intros c' Hc'. apply Hq. by right.
Qed.

(** X22. A query that ends in a lone backslash after ordinary characters
    is not a pattern the engine compiles: the search answers 500 and writes
    nothing. *)
Theorem search_with_trailing_backslash_fails cfg q s :
  literal q →
  handle cfg (GetUsersSearch (Some (q +:+ "\"))) s
  = ({| status := 500; body := JMessage "Server error" |}, s).
Proof.
  intros Hq. pose proof (compile_trailing_backslash q Hq) as Hbad.
  run. unfold Regex.test_i. rewrite Hbad.
  destruct q; by rewrite ?append_cons.
Qed.

Lemma filter_sublist {A} (f : A → bool) (l : list A) :
  List.filter f l `sublist_of` l.
Proof.
  induction l as [|x l IH]; [done|]. cbn [List.filter].
  destruct (f x); [by apply sublist_skip|by apply sublist_cons].
Qed.

(** X23. Whatever the query, the search writes nothing and answers either
    500 or 200 with stored users, in stored order and each without its
    password: it never invents or reorders a record. *)
Theorem search_returns_stored_users cfg query s :
  (handle cfg (GetUsersSearch query) s).2 = s
  ∧ ((handle cfg (GetUsersSearch query) s).1
       = {| status := 500; body := JMessage "Server error" |}
     ∨ ∃ kept,
         kept `sublist_of` users s
         ∧ (handle cfg (GetUsersSearch query) s).1
           = ok_users (User.select_without "password" <$> kept)).
Proof.
  run. destruct query as [[|c q]|].
  - split; [done|]. right. exists []. split; [apply sublist_nil_l|done].
  - destruct (Regex.test_i (regex_beyond cfg) (String c q)) as [test|].
    + split; [done|]. right. eexists. split; [apply filter_sublist|done].
    + split; [done|]. by left.
  - split; [done|]. right. exists []. split; [apply sublist_nil_l|done].
Qed.

(** ** More on creating and updating *)

(** X24. POST /tasks answers 201 or 500 and nothing else.  It never touches
    the users; every task it adds has the caller as [createdBy]; a request
    the schema rejects writes nothing at all; and a 500 never leaves a
    notification behind. *)
Theorem create_replies_201_or_500 cfg now caller b s r s' :
  handle cfg (PostTask now caller b) s = (r, s') →
  (status r = 201%nat
   ∨ r = {| status := 500; body := JMessage "Server error" |})
  ∧ users s' = users s
  ∧ (∀ t, t ∈ tasks s' → t ∈ tasks s ∨ Task.createdBy t = caller)
  ∧ (Task.cast (task_schema cfg) (body_content b) = None → s' = s)
  ∧ (status r = 500%nat → notifications s' = notifications s).
Proof.
  run. intros Hrun.
  destruct (Task.cast (task_schema cfg) (body_content b)) as [content'|];
    [|injection Hrun as <- <-; by auto 10].
  destruct (body_assignedTo b) as [us|].
  - rewrite task_assigned_to_new_valid in Hrun.
    injection Hrun as <- <-. cbn.
    split; [by left|]. split; [done|]. split; [|done].
    intros t [Ht|Ht]%elem_of_app; [by left|].
    apply list_elem_of_singleton in Ht as ->. by right.
  - injection Hrun as <- <-. cbn.
    split; [by right|]. split; [done|]. split; [|done].
    intros t [Ht|Ht]%elem_of_app; [by left|].
    apply list_elem_of_singleton in Ht as ->. by right.
Qed.

(** X25. The notifications a PUT writes quote the title sent in that
    request, not the stored one: when the body carries no title, the
    message reads "... the task: undefined". *)
Theorem update_message_quotes_the_sent_title cfg now caller id b s t n :
  Task.findById id (tasks s) = Some t →
  Task.createdBy t = caller →
  n ∈ notifications (handle cfg (PutTask now caller id b) s).2 →
  n ∉ notifications s →
  Notification.message n
    = "You have been assigned to the task: " +:+ template (Task.title (body_content b))
  ∧ (Task.title (body_content b) = None →
     Notification.message n = "You have been assigned to the task: undefined")
  ∧ Notification.taskId n = id
  ∧ Notification.read n = false
  ∧ Notification.createdAt n = now.
Proof.
  intros Hfind Hcreator Hn Hnew.
  rewrite (put_task_updated cfg now caller id b s t Hfind Hcreator) in Hn.
  cbn [snd notifications] in Hn.
  apply elem_of_app in Hn as [Hn|Hn]; [done|].
  apply elem_of_build_all in Hn as (d & k & Hd & -> & _).
  apply list_elem_of_fmap in Hd as (u & -> & _). cbn.
  split; [done|]. split; [by intros ->|].
  split; [by eapply findById_task_id|done].
Qed.

(** X26. The right to set the status follows the list: after the creator
    has stored a new [assignedTo] with PUT, PATCH status is accepted from
    exactly the users on that list. *)
Theorem reassigning_moves_the_status_right cfg now caller id content us s t u sent :
  Task.findById id (tasks s) = Some t →
  Task.createdBy t = caller →
  let s' :=
    (handle cfg (PutTask now caller id
                   {| body_content := content; body_assignedTo := Some us |}) s).2 in
  (u ∈ us → status (handle cfg (PatchTaskStatus u id sent) s').1 = 200%nat)
  ∧ ((u ∉ us) →
     handle cfg (PatchTaskStatus u id sent) s'
       = ({| status := 403;
             body := JMessage "Not authorized to update this task" |}, s')).
Proof.
  intros Hfind Hcreator s'. subst s'.
  rewrite (put_task_updated cfg now caller id _ s t Hfind Hcreator).
  cbn [snd body_content body_assignedTo].
  set (updates := {| Task.u_content := content; Task.u_assignedTo := Some us |}).
  destruct (findByIdAndUpdate_found id updates _ _ Hfind) as [_ Hstored].
  split.
  - intros Hu. erewrite patch_task_status_updated; [done|exact Hstored|done].
  - intros Hu. run. cbn [tasks]. rewrite Hstored.
    by rewrite bool_decide_eq_true_2.
Qed.

Lemma apply_set_twice u t :
  Task.apply_set u (Task.apply_set u t) = Task.apply_set u t.
Proof.
  destruct u as [[ti de st pr du] a], t as [i [ti' de' st' pr' du'] c a' at'].
  cbn. by destruct ti, de, st, pr, du, a.
Qed.

Lemma findByIdAndUpdate_twice id u coll :
  (Task.findByIdAndUpdate id u (Task.findByIdAndUpdate id u coll).2).2
  = (Task.findByIdAndUpdate id u coll).2.
Proof.
  induction coll as [|t coll IH]; [done|].
  cbn [Task.findByIdAndUpdate].
  destruct (Task._id t =? id) eqn:Hid.
  - cbn [snd Task.findByIdAndUpdate Task.apply_set Task._id].
    rewrite Hid. cbn [snd]. f_equal.
    change ({| Task._id := Task._id t;
               Task.content := Task.content (Task.apply_set u (Task.apply_set u t));
               Task.createdBy := Task.createdBy t;
               Task.assignedTo := Task.assignedTo (Task.apply_set u (Task.apply_set u t));
               Task.createdAt := Task.createdAt t |})
      with (Task.apply_set u (Task.apply_set u t)).
    apply apply_set_twice.
  - destruct (Task.findByIdAndUpdate id u coll) as [r coll'] eqn:Hrec.
    cbn [snd Task.findByIdAndUpdate] in *. rewrite Hid.
    destruct (Task.findByIdAndUpdate id u coll') as [r' coll''].
    cbn [snd] in *. by rewrite IH.
Qed.

(** X27. PUT /tasks/:id is idempotent: sending the same update again gets
    the same reply, stores nothing new and writes no further notification,
    since everyone on the list is an assignee by then. *)
Theorem update_twice_is_update_once cfg now now' caller id b s t :
  Task.findById id (tasks s) = Some t →
  Task.createdBy t = caller →
  let first := handle cfg (PutTask now caller id b) s in
  handle cfg (PutTask now' caller id b) first.2 = first.
Proof.
  intros Hfind Hcreator first. subst first.
  rewrite (put_task_updated cfg now caller id b s t Hfind Hcreator).
  cbn [snd].
  set (updates := {| Task.u_content := body_content b;
                     Task.u_assignedTo := body_assignedTo b |}).
  destruct (findByIdAndUpdate_found id updates _ _ Hfind) as [_ Hstored].
  erewrite put_task_updated; [|exact Hstored|done].
  cbn [users tasks notifications next_oid]. fold updates.
  assert (Hnone : newAssignees (Task.apply_set updates t) (body_assignedTo b) = []).
  { unfold newAssignees, updates. cbn [Task.apply_set Task.assignedTo Task.u_assignedTo].
    destruct (body_assignedTo b) as [us|]; [|done]. cbn [default].
    induction us as [|u us IH]; [done|].
    assert (Hall : ∀ l, (∀ x, x ∈ l → x ∈ u :: us) →
               filter (λ userId, userId ∉ u :: us) l = []).
    { clear. induction l as [|x l IHl]; intros Hl; [done|].
      rewrite filter_cons_False by (intros H; apply H, Hl; left).
      apply IHl. intros y Hy. apply Hl. by right. }
    by apply Hall. }
  rewrite Hnone. cbn [fmap list_fmap Notification.build_all length].
  rewrite app_nil_r, N.add_0_r, apply_set_twice, findByIdAndUpdate_twice.
  done.
Qed.

(** X28. A task that has just been created is listed for its creator by
    GET /tasks/created and for every user on its list by
    GET /tasks/assigned. *)
Theorem created_task_is_listed cfg now caller content us s r s1 :
  wf s →
  handle cfg (PostTask now caller
                {| body_content := content; body_assignedTo := Some us |}) s
    = (r, s1) →
  status r = 201%nat →
  ∃ shown,
    body r = JTask (Some shown)
    ∧ Task.createdBy (pt_doc shown) = caller
    ∧ Task.assignedTo (pt_doc shown) = us
    ∧ (∃ listed,
         handle cfg (GetTasksCreated caller) s1
           = ({| status := 200; body := JTasks listed |}, s1)
         ∧ shown ∈ listed)
    ∧ (∀ u, u ∈ us →
         ∃ listed,
           handle cfg (GetTasksAssigned u) s1
             = ({| status := 200; body := JTasks listed |}, s1)
           ∧ shown ∈ listed).
Proof.
  intros [Hids _ _ _] Hrun Hcreated.
  destruct (create_reply_201 cfg now caller
              {| body_content := content; body_assignedTo := Some us |}
              s r s1 us eq_refl Hids Hrun Hcreated)
    as (content' & -> & ->). cbn zeta.
  eexists. split; [done|]. cbn [populate_task pt_doc Task.createdBy Task.assignedTo].
  split; [done|]. split; [done|]. split.
  - eexists. split; [by run|].
    apply sort_desc_elem_of, list_elem_of_fmap. eexists. split; [done|].
    apply list_elem_of_filter. split; [done|].
    apply elem_of_app. right. by left.
  - intros u Hu. eexists. split; [by run|].
    apply sort_desc_elem_of, list_elem_of_fmap. eexists. split; [done|].
    apply list_elem_of_filter. split; [done|].
    apply elem_of_app. right. by left.
Qed.

(** ** The further properties on the sample data *)

Lemma planned_wf : wf planned.
Proof. exact (reachable_wf demo planned planned_is_reachable). Qed.

Lemma all_tasks_are_for_admins_witness :
  User.findById alice (users planned) = Some alice_doc
  ∧ User.fields alice_doc !! "role" = Some "admin"
  ∧ User.findById bob (users planned) = Some bob_doc
  ∧ User.fields bob_doc !! "role" ≠ Some "admin"
  ∧ (∃ listed,
       handle demo (GetTasks alice) planned
         = ({| status := 200; body := JTasks listed |}, planned)
       ∧ listed ≡ₚ populate_task (users planned) <$> tasks planned
       ∧ newest_first (Task.createdAt ∘ pt_doc) listed)
  ∧ handle demo (GetTasks bob) planned
    = ({| status := 403; body := JMessage "Access denied" |}, planned).
Proof.
  assert (H1 : User.findById alice (users planned) = Some alice_doc)
    by reflexivity.
  assert (H2 : User.fields alice_doc !! "role" = Some "admin") by reflexivity.
  assert (H3 : User.findById bob (users planned) = Some bob_doc) by reflexivity.
  assert (H4 : User.fields bob_doc !! "role" ≠ Some "admin")
    by (vm_compute; discriminate).
  split; [exact H1|]. split; [exact H2|]. split; [exact H3|]. split; [exact H4|].
  split.
  - exact (proj2 (proj2 (all_tasks_are_for_admins demo alice planned))
             alice_doc H1 H2).
  - exact (proj1 (proj2 (all_tasks_are_for_admins demo bob planned))
             bob_doc H3 H4).
Defined.

Lemma no_reply_shows_a_password_witness :
  let u := User.select_only display bob_doc in
  u ∈ users_shown (body (handle demo (GetTasksCreated alice) planned).1)
  ∧ User.fields bob_doc !! "password" = Some "builder"
  ∧ User.fields u !! "password" = None.
Proof.
  intros u.
  assert (Hu : u ∈ users_shown (body (handle demo (GetTasksCreated alice) planned).1))
    by (vm_compute; right; left).
  split; [exact Hu|]. split; [reflexivity|].
  exact (no_reply_shows_a_password demo (GetTasksCreated alice) planned u Hu).
Defined.

Lemma mark_read_refuses_witness :
  Notification.findById 7 (notifications planned) = None
  ∧ Notification.findById 1 (notifications planned) = Some plan_notice
  ∧ Notification.userId plan_notice ≠ alice
  ∧ handle demo (PatchNotificationRead alice 7) planned
    = ({| status := 404; body := JMessage "Notification not found" |}, planned)
  ∧ handle demo (PatchNotificationRead alice 1) planned
    = ({| status := 403; body := JMessage "Not authorized" |}, planned).
Proof.
  assert (H1 : Notification.findById 7 (notifications planned) = None)
    by reflexivity.
  assert (H2 : Notification.findById 1 (notifications planned) = Some plan_notice)
    by reflexivity.
  assert (H3 : Notification.userId plan_notice ≠ alice)
    by (vm_compute; discriminate).
  split; [exact H1|]. split; [exact H2|]. split; [exact H3|]. split.
  - exact (proj1 (mark_read_refuses demo alice 7 planned) H1).
  - exact (proj2 (mark_read_refuses demo alice 1 planned) plan_notice H2 H3).
Defined.

Lemma mark_read_touches_one_witness :
  wf planned
  ∧ Notification.findById 1 (notifications planned) = Some plan_notice
  ∧ Notification.userId plan_notice = bob
  ∧ (handle demo (PatchNotificationRead bob 1) planned).2
    = {| users := users planned; tasks := tasks planned;
         notifications :=
           (λ m, if Notification._id m =? 1 then Notification.set_read m else m)
             <$> notifications planned;
         next_oid := next_oid planned |}.
Proof.
  split; [exact planned_wf|]. split; [reflexivity|]. split; [reflexivity|].
  exact (mark_read_touches_one demo bob 1 planned plan_notice
           planned_wf eq_refl eq_refl).
Defined.

Lemma missing_task_is_not_found_witness :
  Task.findById 9 (tasks planned) = None
  ∧ handle demo (PutTask 6 alice 9
                   {| body_content := titled "Gone"; body_assignedTo := None |})
      planned
    = ({| status := 404; body := JMessage "Task not found" |}, planned)
  ∧ handle demo (PatchTaskStatus bob 9 (Some (JStr "done"))) planned
    = ({| status := 404; body := JMessage "Task not found" |}, planned)
  ∧ handle demo (DeleteTask alice 9) planned
    = ({| status := 404; body := JMessage "Task not found" |}, planned).
Proof.
  split; [reflexivity|].
  exact (missing_task_is_not_found demo 6 alice 9
           {| body_content := titled "Gone"; body_assignedTo := None |}
           (Some (JStr "done")) planned eq_refl).
Defined.

Lemma rights_are_separate_witness :
  Task.findById 0 (tasks planned) = Some plan
  ∧ Task.createdBy plan ≠ bob
  ∧ (alice ∉ Task.assignedTo plan)
  ∧ handle demo (DeleteTask bob 0) planned
    = ({| status := 403;
          body := JMessage "Not authorized to delete this task" |}, planned)
  ∧ handle demo (PatchTaskStatus alice 0 (Some (JStr "done"))) planned
    = ({| status := 403;
          body := JMessage "Not authorized to update this task" |}, planned).
Proof.
  assert (H1 : Task.findById 0 (tasks planned) = Some plan) by reflexivity.
  assert (H2 : Task.createdBy plan ≠ bob) by (vm_compute; discriminate).
  assert (H3 : alice ∉ Task.assignedTo plan).
  { intros H. apply list_elem_of_singleton in H. discriminate H. }
  split; [exact H1|]. split; [exact H2|]. split; [exact H3|].
  pose (b := {| body_content := titled "Mine"; body_assignedTo := None |}).
  split.
  - exact (proj2 (proj1 (rights_are_separate demo 6 bob 0 b None planned plan H1) H2)).
  - exact (proj2 (rights_are_separate demo 6 alice 0 b (Some (JStr "done"))
                    planned plan H1) H3).
Defined.

Lemma status_update_changes_status_only_witness :
  Task.findById 0 (tasks planned) = Some plan
  ∧ bob ∈ Task.assignedTo plan
  ∧ ∃ r s' t',
      handle demo (PatchTaskStatus bob 0 (Some (JStr "done"))) planned = (r, s')
      ∧ status r = 200%nat
      ∧ Task.findById 0 (tasks s') = Some t'
      ∧ Task.status (Task.content t') = Some (JStr "done")
      ∧ Task.title (Task.content t') = Some (JStr "Plan")
      ∧ notifications s' = notifications planned.
Proof.
  assert (H1 : Task.findById 0 (tasks planned) = Some plan) by reflexivity.
  assert (H2 : bob ∈ Task.assignedTo plan) by (vm_compute; left).
  split; [exact H1|]. split; [exact H2|].
  destruct (status_update_changes_status_only demo bob 0 (Some (JStr "done"))
              planned plan H1 H2)
    as (r & s' & t' & Hrun & Hstatus & _ & Hfind & [_ Hsent] & Htitle & _ & _
        & _ & _ & _ & _ & _ & Hnotifications & _).
  exists r, s', t'. split; [exact Hrun|]. split; [exact Hstatus|].
  split; [exact Hfind|]. split; [exact (Hsent _ eq_refl)|].
  split; [exact Htitle|exact Hnotifications].
Defined.

Lemma update_leaves_the_rest_witness :
  let b := {| body_content := titled "Plan B"; body_assignedTo := None |} in
  Task.findById 0 (tasks planned) = Some plan
  ∧ Task.createdBy plan = alice
  ∧ users (handle demo (PutTask 6 alice 0 b) planned).2 = users planned
  ∧ length (tasks (handle demo (PutTask 6 alice 0 b) planned).2)
    = length (tasks planned)
  ∧ notifications (handle demo (PutTask 6 alice 0 b) planned).2
    = notifications planned.
Proof.
  intros b. split; [reflexivity|]. split; [reflexivity|].
  destruct (update_leaves_the_rest demo 6 alice 0 b planned plan eq_refl eq_refl)
    as (Husers & Hlength & _ & _ & Hnone).
  split; [exact Husers|]. split; [exact Hlength|exact (Hnone eq_refl)].
Defined.

Lemma delete_removes_one_task_witness :
  Task.findById 0 (tasks planned) = Some plan
  ∧ Task.createdBy plan = alice
  ∧ S (length (tasks (handle demo (DeleteTask alice 0) planned).2))
    = length (tasks planned)
  ∧ users (handle demo (DeleteTask alice 0) planned).2 = users planned.
Proof.
  split; [reflexivity|]. split; [reflexivity|].
  destruct (delete_removes_one_task demo alice 0 planned plan eq_refl eq_refl)
    as (Hlength & _ & Husers & _).
  split; [exact Hlength|exact Husers].
Defined.

Lemma stored_documents_are_found_by_id_witness :
  reachable demo planned
  ∧ plan ∈ tasks planned
  ∧ Task.findById (Task._id plan) (tasks planned) = Some plan.
Proof.
  assert (Hplan : plan ∈ tasks planned) by (vm_compute; left).
  split; [exact planned_is_reachable|]. split; [exact Hplan|].
  exact (proj1 (stored_documents_are_found_by_id demo planned
                  planned_is_reachable) plan Hplan).
Defined.

Lemma notifications_refer_to_stored_tasks_witness :
  reachable demo planned
  ∧ plan_notice ∈ notifications planned
  ∧ ∃ t, Task.findById (Notification.taskId plan_notice) (tasks planned) = Some t
         ∧ t ∈ tasks planned.
Proof.
  assert (Hn : plan_notice ∈ notifications planned) by (vm_compute; left).
  split; [exact planned_is_reachable|]. split; [exact Hn|].
  exact (notifications_refer_to_stored_tasks demo planned plan_notice
           planned_is_reachable Hn).
Defined.

Lemma task_updated_is_never_written_witness :
  reachable demo planned
  ∧ plan_notice ∈ notifications planned
  ∧ Notification.type plan_notice = Notification.task_assigned.
Proof.
  assert (Hn : plan_notice ∈ notifications planned) by (vm_compute; left).
  split; [exact planned_is_reachable|]. split; [exact Hn|].
  exact (task_updated_is_never_written demo planned plan_notice
           planned_is_reachable Hn).
Defined.

Lemma users_never_change_witness :
  let s' :=
    (handle demo (DeleteTask alice 0)
       (handle demo (PostMarkAllRead bob) planned).2).2 in
  steps demo planned s' ∧ users s' = users planned.
Proof.
  intros s'.
  assert (Hsteps : steps demo planned s').
  { eapply steps_next, steps_next, steps_refl. }
  split; [exact Hsteps|].
  exact (users_never_change demo planned s' Hsteps).
Defined.

Lemma create_then_delete_restores_witness :
  ∃ r s1,
    reachable demo planned
    ∧ handle demo
        (PostTask 8 bob
           {| body_content := titled "Next"; body_assignedTo := Some [alice] |})
        planned = (r, s1)
    ∧ status r = 201%nat
    ∧ ∃ task,
        body r = JTask (Some (populate_task (users s1) task))
        ∧ (handle demo (DeleteTask bob (Task._id task)) s1).1
          = {| status := 200; body := JMessage "Task deleted" |}
        ∧ tasks (handle demo (DeleteTask bob (Task._id task)) s1).2
          = tasks planned
        ∧ notifications (handle demo (DeleteTask bob (Task._id task)) s1).2
          = notifications planned
        ∧ users (handle demo (DeleteTask bob (Task._id task)) s1).2
          = users planned.
Proof.
  eexists _, _. split; [exact planned_is_reachable|].
  split; [reflexivity|]. split; [reflexivity|].
  apply (create_then_delete_restores demo 8 bob (titled "Next") [alice] planned);
    [exact planned_is_reachable|reflexivity|reflexivity].
Defined.

Lemma assignee_sees_the_assignment_witness :
  ∃ r s1,
    wf planned
    ∧ handle demo
        (PostTask 8 bob
           {| body_content := titled "Next"; body_assignedTo := Some [alice] |})
        planned = (r, s1)
    ∧ status r = 201%nat
    ∧ alice ∈ [alice]
    ∧ ∃ task listed pn,
        body r = JTask (Some (populate_task (users s1) task))
        ∧ handle demo (GetNotifications alice) s1
          = ({| status := 200; body := JNotifications listed |}, s1)
        ∧ pn ∈ listed
        ∧ Notification.userId (pn_doc pn) = alice
        ∧ Notification.taskId (pn_doc pn) = Task._id task
        ∧ Notification.read (pn_doc pn) = false
        ∧ pn_taskId pn = Some (Task._id task, Task.title (Task.content task)).
Proof.
  assert (Hu : alice ∈ [alice]) by left.
  eexists _, _. split; [exact planned_wf|].
  split; [reflexivity|]. split; [reflexivity|]. split; [exact Hu|].
  apply (assignee_sees_the_assignment demo 8 bob (titled "Next") [alice]
           planned _ _ alice planned_wf eq_refl eq_refl Hu).
Defined.

Lemma deleted_task_is_not_found_witness :
  let s' := (handle demo (DeleteTask alice 0) planned).2 in
  wf planned
  ∧ Task.findById 0 (tasks planned) = Some plan
  ∧ Task.createdBy plan = alice
  ∧ handle demo (DeleteTask alice 0) s'
    = ({| status := 404; body := JMessage "Task not found" |}, s')
  ∧ handle demo (PatchTaskStatus bob 0 (Some (JStr "done"))) s'
    = ({| status := 404; body := JMessage "Task not found" |}, s').
Proof.
  intros s'. split; [exact planned_wf|]. split; [reflexivity|]. split; [reflexivity|].
  destruct (deleted_task_is_not_found demo 6 alice alice 0
              {| body_content := titled "Plan"; body_assignedTo := None |}
              (Some (JStr "done")) planned plan planned_wf eq_refl eq_refl)
    as (Hdelete & _ & _).
  destruct (deleted_task_is_not_found demo 6 alice bob 0
              {| body_content := titled "Plan"; body_assignedTo := None |}
              (Some (JStr "done")) planned plan planned_wf eq_refl eq_refl)
    as (_ & _ & Hpatch).
  split; [exact Hdelete|exact Hpatch].
Defined.

Lemma search_ignores_the_case_of_the_query_witness :
  literal "bob" ∧ literal "BoB"
  ∧ lower_string "bob" = lower_string "BoB"
  ∧ handle demo (GetUsersSearch (Some "bob")) (initial directory)
    = handle demo (GetUsersSearch (Some "BoB")) (initial directory).
Proof.
  assert (H1 : literal "bob").
  { intros c Hc. cbn in Hc.
    repeat (apply elem_of_cons in Hc as [->|Hc]; [reflexivity|]).
    by apply elem_of_nil in Hc. }
  assert (H2 : literal "BoB").
  { intros c Hc. cbn in Hc.
    repeat (apply elem_of_cons in Hc as [->|Hc]; [reflexivity|]).
    by apply elem_of_nil in Hc. }
  assert (H3 : lower_string "bob" = lower_string "BoB") by reflexivity.
  split; [exact H1|]. split; [exact H2|]. split; [exact H3|].
  exact (search_ignores_the_case_of_the_query demo "bob" "BoB"
           (initial directory) H1 H2 H3).
Defined.

Lemma search_with_trailing_backslash_fails_witness :
  literal "bob"
  ∧ handle demo (GetUsersSearch (Some ("bob" +:+ "\"))) (initial directory)
    = ({| status := 500; body := JMessage "Server error" |}, initial directory).
Proof.
  assert (H1 : literal "bob").
  { intros c Hc. cbn in Hc.
    repeat (apply elem_of_cons in Hc as [->|Hc]; [reflexivity|]).
    by apply elem_of_nil in Hc. }
  split; [exact H1|].
  exact (search_with_trailing_backslash_fails demo "bob" (initial directory) H1).
Defined.

Lemma create_replies_201_or_500_witness :
  ∃ r s',
    handle demo
      (PostTask 8 bob
         {| body_content := titled ""; body_assignedTo := Some [alice] |})
      planned = (r, s')
    ∧ r = {| status := 500; body := JMessage "Server error" |}
    ∧ s' = planned.
Proof.
  eexists _, _. split; [reflexivity|].
  destruct (create_replies_201_or_500 demo 8 bob
              {| body_content := titled ""; body_assignedTo := Some [alice] |}
              planned _ _ eq_refl)
    as (_ & _ & _ & Hrejected & _).
  split; [reflexivity|exact (Hrejected eq_refl)].
Defined.

Lemma update_message_quotes_the_sent_title_witness :
  let b :=
    {| body_content :=
         {| Task.title := None; Task.description := None; Task.status := None;
            Task.priority := None; Task.dueDate := None |};
       body_assignedTo := Some [bob; carol] |} in
  let n :=
    {| Notification._id := 2; Notification.type := Notification.task_assigned;
       Notification.taskId := 0;
       Notification.message := "You have been assigned to the task: undefined";
       Notification.userId := carol; Notification.read := false;
       Notification.createdAt := 6 |} in
  Task.findById 0 (tasks planned) = Some plan
  ∧ Task.createdBy plan = alice
  ∧ n ∈ notifications (handle demo (PutTask 6 alice 0 b) planned).2
  ∧ (n ∉ notifications planned)
  ∧ Notification.message n = "You have been assigned to the task: undefined".
Proof.
  intros b n.
  assert (Hn : n ∈ notifications (handle demo (PutTask 6 alice 0 b) planned).2)
    by (vm_compute; right; left).
  assert (Hnew : n ∉ notifications planned).
  { intros H. apply list_elem_of_singleton in H. discriminate H. }
  split; [reflexivity|]. split; [reflexivity|].
  split; [exact Hn|]. split; [exact Hnew|].
  exact (proj1 (proj2 (update_message_quotes_the_sent_title demo 6 alice 0 b
                         planned plan n eq_refl eq_refl Hn Hnew)) eq_refl).
Defined.

Lemma reassigning_moves_the_status_right_witness :
  let s' :=
    (handle demo (PutTask 6 alice 0
                    {| body_content := titled "Plan";
                       body_assignedTo := Some [carol] |}) planned).2 in
  Task.findById 0 (tasks planned) = Some plan
  ∧ Task.createdBy plan = alice
  ∧ carol ∈ [carol]
  ∧ (bob ∉ [carol])
  ∧ status (handle demo (PatchTaskStatus carol 0 (Some (JStr "done"))) s').1
    = 200%nat
  ∧ handle demo (PatchTaskStatus bob 0 (Some (JStr "done"))) s'
    = ({| status := 403;
          body := JMessage "Not authorized to update this task" |}, s').
Proof.
  intros s'.
  assert (H1 : carol ∈ [carol]) by left.
  assert (H2 : bob ∉ [carol]).
  { intros H. apply list_elem_of_singleton in H. discriminate H. }
  split; [reflexivity|]. split; [reflexivity|].
  split; [exact H1|]. split; [exact H2|]. split.
  - exact (proj1 (reassigning_moves_the_status_right demo 6 alice 0 (titled "Plan")
                    [carol] planned plan carol (Some (JStr "done"))
                    eq_refl eq_refl) H1).
  - exact (proj2 (reassigning_moves_the_status_right demo 6 alice 0 (titled "Plan")
                    [carol] planned plan bob (Some (JStr "done"))
                    eq_refl eq_refl) H2).
Defined.

Lemma update_twice_is_update_once_witness :
  let b := {| body_content := titled "Plan B";
              body_assignedTo := Some [bob; carol] |} in
  Task.findById 0 (tasks planned) = Some plan
  ∧ Task.createdBy plan = alice
  ∧ handle demo (PutTask 7 alice 0 b) (handle demo (PutTask 6 alice 0 b) planned).2
    = handle demo (PutTask 6 alice 0 b) planned.
Proof.
  intros b. split; [reflexivity|]. split; [reflexivity|].
  exact (update_twice_is_update_once demo 6 7 alice 0 b planned plan
           eq_refl eq_refl).
Defined.

Lemma created_task_is_listed_witness :
  ∃ r s1,
    wf planned
    ∧ handle demo
        (PostTask 8 bob
           {| body_content := titled "Next"; body_assignedTo := Some [alice] |})
        planned = (r, s1)
    ∧ status r = 201%nat
    ∧ ∃ shown,
        body r = JTask (Some shown)
        ∧ Task.createdBy (pt_doc shown) = bob
        ∧ Task.assignedTo (pt_doc shown) = [alice]
        ∧ (∃ listed,
             handle demo (GetTasksCreated bob) s1
               = ({| status := 200; body := JTasks listed |}, s1)
             ∧ shown ∈ listed)
        ∧ (∀ u, u ∈ [alice] →
             ∃ listed,
               handle demo (GetTasksAssigned u) s1
                 = ({| status := 200; body := JTasks listed |}, s1)
               ∧ shown ∈ listed).
Proof.
  eexists _, _. split; [exact planned_wf|].
  split; [reflexivity|]. split; [reflexivity|].
  apply (created_task_is_listed demo 8 bob (titled "Next") [alice] planned);
    [exact planned_wf|reflexivity|reflexivity].
Defined.
